(** * window_utils: window enumeration, title and process-name lookup

    A shallow embedding of [window_utils.py].  The module is a set of
    [ctypes] bindings to user32 and kernel32; the functions of the
    module are embedded as they are written, in a state-and-exception
    monad over an in-memory model of the window registry, the process
    table and the kernel handle table.  Every native call leaves an
    event in a call log, so that statements about which calls were
    issued (buffer sizes, handle acquisition and release) can be made.

    The functions come in two layers.  The first takes its integers as
    C ints, which is how identifiers arrive from [EnumWindows] and from
    other native calls.  The second, in module [Ctypes], is the
    function as Python calls it with any [int]: every such argument
    first goes through the conversion that [ctypes] applies, which
    wraps it to 32 bits or raises [ArgumentError]. *)

From Stdlib Require Import ZArith String Ascii.
From stdpp Require Import base gmap strings list.

Local Open Scope string_scope.
Local Open Scope list_scope.
Local Open Scope Z_scope.

(** ** Module constants *)

Definition WS_EX_LAYERED : Z := 0x00080000.
Definition LWA_ALPHA : Z := 0x00000002.
Definition GWL_EXSTYLE : Z := -20.
Definition SW_MINIMIZE : Z := 6.
Definition SC_MINIMIZE : Z := 0xF020.
Definition WM_SYSCOMMAND : Z := 0x0112.
Definition WS_EX_TOOLWINDOW : Z := 0x00000080.
Definition WS_EX_APPWINDOW : Z := 0x00040000.
Definition WS_EX_TOPMOST : Z := 0x00000008.
Definition GWL_STYLE : Z := -16.
Definition GW_OWNER : Z := 4.
Definition PROCESS_QUERY_LIMITED_INFORMATION : Z := 0x1000.

(** ** The platform: registry, processes, handles

    Integers are the values Python sees on its side of the foreign
    call: window identifiers, process identifiers, style words and
    kernel handles are all [Z]. *)

Record window := Window {
  w_visible : bool;      (* what IsWindowVisible reports *)
  w_exstyle : Z;         (* the GWL_EXSTYLE word *)
  w_owner : Z;           (* GetWindow(.., GW_OWNER); 0 is "no owner" *)
  w_text : string;       (* the window text *)
  w_thread : Z;          (* creating thread *)
  w_pid : Z;             (* creating process *)
  w_alpha : option Z     (* layered alpha, once set *)
}.

Record process := Process {
  p_access : bool;           (* is PROCESS_QUERY_LIMITED_INFORMATION granted *)
  p_image : option string    (* full image path, when it can be queried *)
}.

Inductive event :=
| EvIsWindowVisible (hwnd ret : Z)
| EvGetWindowTextLengthW (hwnd ret : Z)
| EvGetWindowTextW (hwnd : Z) (capacity : nat) (nMaxCount ret : Z)
| EvEnumWindows (lParam : Z)
| EvGetWindowLongPtr (hwnd nIndex ret : Z)
| EvSetWindowLongPtr (hwnd nIndex dwNewLong ret : Z)
| EvGetWindow (hwnd uCmd ret : Z)
| EvSetLayeredWindowAttributes (hwnd crKey bAlpha dwFlags ret : Z)
| EvGetWindowThreadProcessId (hwnd ret : Z)
| EvOpenProcess (dwDesiredAccess dwProcessId ret : Z)
| EvQueryFullProcessImageNameW (hProcess : Z) (capacity : nat) (size ret : Z)
| EvCloseHandle (hObject ret : Z).

(** [os_windows] is the registry of top-level windows, the ones that
    [EnumWindows] walks; an identifier outside it is stale.  The kernel
    handle table is a list of slots: slot [i] belongs to the handle
    [4 * (i + 1)] and holds the process it refers to, or [None] once
    the handle has been closed.  A new handle takes a new slot, so it
    is never zero and never an existing handle. *)

Record os := OS {
  os_windows : gmap Z window;
  os_processes : gmap Z process;
  os_handles : list (option Z);
  os_trace : list event
}.

Definition handle_of_slot (i : nat) : Z := 4 * (Z.of_nat i + 1).
Arguments handle_of_slot : simpl never.

Definition slot_of_handle (h : Z) : option nat :=
  if decide (0 < h ∧ h mod 4 = 0) then Some (Z.to_nat (h / 4 - 1)) else None.

Definition handle_target (σ : os) (h : Z) : option Z :=
  i ← slot_of_handle h; mjoin (os_handles σ !! i).



(** ** Python values and the monad *)

Inductive exn := ValueError | IndexError | ArgumentError.

Inductive outcome (A : Type) :=
| Ok (a : A)
| Raise (e : exn).
Arguments Ok {A} a.
Arguments Raise {A} e.

Definition py (A : Type) : Type := os → outcome A * os.

Definition py_ret {A} (a : A) : py A := λ σ, (Ok a, σ).

Definition py_bind {A B} (f : A → py B) (m : py A) : py B :=
  λ σ, match m σ with
       | (Ok a, σ') => f a σ'
       | (Raise e, σ') => (Raise e, σ')
       end.

Definition py_raise {A} (e : exn) : py A := λ σ, (Raise e, σ).

#[global] Instance py_mret : MRet py := @py_ret.
#[global] Instance py_mbind : MBind py := @py_bind.

(** Truth value of an [int] and of a [str]. *)
Definition truthy (z : Z) : bool := negb (z =? 0).
Arguments truthy : simpl never.

Definition str_truthy (s : string) : bool :=
  match s with EmptyString => false | String _ _ => true end.

(** ** ctypes unicode buffers *)

Definition NUL : ascii := Ascii.zero.

(** [ctypes.create_unicode_buffer(n)]: [n] characters, all NUL; a
    negative size raises [ValueError]. *)
Definition create_unicode_buffer (n : Z) : py (list ascii) :=
  if decide (n < 0) then py_raise ValueError
  else mret (replicate (Z.to_nat n) NUL).

(** [buffer.value]: the text up to the first NUL. *)
Fixpoint value (buffer : list ascii) : string :=
  match buffer with
  | [] => ""
  | c :: buffer => if decide (c = NUL) then "" else String c (value buffer)
  end.

(** What a native call stores into a caller's buffer: the characters
    of [src] from the start of the buffer, never beyond its end. *)
Definition poke (src buffer : list ascii) : list ascii :=
  take (length buffer) src ++ drop (length src) buffer.

(** ** Native calls *)

Definition get_os : py os := λ σ, (Ok σ, σ).

Definition log (e : event) : py unit :=
  λ σ, (Ok tt, OS (os_windows σ) (os_processes σ) (os_handles σ)
                  (os_trace σ ++ [e])).

Definition set_windows (ws : gmap Z window) : py unit :=
  λ σ, (Ok tt, OS ws (os_processes σ) (os_handles σ) (os_trace σ)).

Definition set_handles (hs : list (option Z)) : py unit :=
  λ σ, (Ok tt, OS (os_windows σ) (os_processes σ) hs (os_trace σ)).

Definition Z_of_bool (b : bool) : Z := if b then 1 else 0.

Definition IsWindowVisible (hwnd : Z) : py Z :=
  σ ← get_os;
  let ret := match os_windows σ !! hwnd with
             | Some w => Z_of_bool (w_visible w)
             | None => 0
             end in
  _ ← log (EvIsWindowVisible hwnd ret);
  mret ret.

Definition GetWindowTextLengthW (hwnd : Z) : py Z :=
  σ ← get_os;
  let ret := match os_windows σ !! hwnd with
             | Some w => Z.of_nat (String.length (w_text w))
             | None => 0
             end in
  _ ← log (EvGetWindowTextLengthW hwnd ret);
  mret ret.

(** Copies at most [nMaxCount - 1] characters and a terminating NUL;
    returns the number of characters copied.  For an identifier that
    names no window nothing is copied and the result is 0. *)
Definition GetWindowTextW (hwnd : Z) (lpString : list ascii) (nMaxCount : Z)
    : py (Z * list ascii) :=
  σ ← get_os;
  let '(ret, out) :=
    match os_windows σ !! hwnd with
    | Some w =>
        if decide (0 < nMaxCount) then
          let copied := take (Z.to_nat (nMaxCount - 1))
                             (list_ascii_of_string (w_text w)) in
          (Z.of_nat (length copied), poke (copied ++ [NUL]) lpString)
        else (0, lpString)
    | None => (0, lpString)
    end in
  _ ← log (EvGetWindowTextW hwnd (length lpString) nMaxCount ret);
  mret (ret, out).

Definition get_window_long (hwnd nIndex : Z) : py Z :=
  σ ← get_os;
  let ret := match os_windows σ !! hwnd with
             | Some w => if decide (nIndex = GWL_EXSTYLE) then w_exstyle w else 0
             | None => 0
             end in
  _ ← log (EvGetWindowLongPtr hwnd nIndex ret);
  mret ret.

Definition GetWindowLongPtrW := get_window_long.
Definition GetWindowLongPtrA := get_window_long.

Definition GetWindow (hwnd uCmd : Z) : py Z :=
  σ ← get_os;
  let ret := match os_windows σ !! hwnd with
             | Some w => if decide (uCmd = GW_OWNER) then w_owner w else 0
             | None => 0
             end in
  _ ← log (EvGetWindow hwnd uCmd ret);
  mret ret.

(** [EnumWindows] hands every top-level window to the callback, and
    stops as soon as the callback answers false.  The callback is a
    Python closure: [S] is the state it captures. *)
Fixpoint enum_walk {S} (cb : Z → Z → S → py (bool * S)) (lParam : Z)
    (hwnds : list Z) (s : S) : py (Z * S) :=
  match hwnds with
  | [] => mret (1, s)
  | hwnd :: hwnds =>
      '(continue, s) ← cb hwnd lParam s;
      if continue : bool then enum_walk cb lParam hwnds s else mret (0, s)
  end.

Definition EnumWindows {S} (cb : Z → Z → S → py (bool * S)) (lParam : Z)
    (s : S) : py (Z * S) :=
  σ ← get_os;
  _ ← log (EvEnumWindows lParam);
  enum_walk cb lParam (map_to_list (os_windows σ)).*1 s.

(** ** The module's functions: titles and enumeration

    Here and below [hwnd] and [opacity] are C ints already; the
    functions as called with any Python [int] are in module [Ctypes]. *)

Definition get_title_from_hwnd (hwnd : Z) : py string :=
  length ← GetWindowTextLengthW hwnd;
  buff ← create_unicode_buffer (length + 1);
  '(_, buff) ← GetWindowTextW hwnd buff (length + 1);
  mret (value buff).

(** The callback of [get_all_windows]; [windows] is the dictionary of
    the enclosing call. *)
Definition all_windows_proc_callback (hwnd l_param : Z)
    (windows : gmap Z string) : py (bool * gmap Z string) :=
  visible ← IsWindowVisible hwnd;
  if truthy visible then
    title ← get_title_from_hwnd hwnd;
    if str_truthy title then mret (true, <[hwnd := title]> windows)
    else mret (true, windows)
  else mret (true, windows).

Definition get_all_windows : py (gmap Z string) :=
  let windows : gmap Z string := ∅ in
  '(_, windows) ← EnumWindows all_windows_proc_callback 0 windows;
  mret windows.

(** The callback of [get_all_user_windows]. *)
Definition user_windows_proc_callback (hwnd l_param : Z)
    (windows : gmap Z string) : py (bool * gmap Z string) :=
  visible ← IsWindowVisible hwnd;
  if negb (truthy visible) then mret (true, windows)
  else
    style ← GetWindowLongPtrW hwnd GWL_EXSTYLE;
    if truthy (Z.land style WS_EX_TOOLWINDOW) then mret (true, windows)
    else
      owner ← GetWindow hwnd GW_OWNER;
      if truthy owner then mret (true, windows)
      else
        title ← get_title_from_hwnd hwnd;
        if str_truthy title then mret (true, <[hwnd := title]> windows)
        else mret (true, windows).

Definition get_all_user_windows : py (gmap Z string) :=
  let windows : gmap Z string := ∅ in
  '(_, windows) ← EnumWindows user_windows_proc_callback 0 windows;
  mret windows.

(** ** Native calls: styles, processes and handles *)

Definition with_exstyle (w : window) (exstyle : Z) : window :=
  Window (w_visible w) exstyle (w_owner w) (w_text w) (w_thread w) (w_pid w)
         (w_alpha w).

Definition with_alpha (w : window) (alpha : Z) : window :=
  Window (w_visible w) (w_exstyle w) (w_owner w) (w_text w) (w_thread w)
         (w_pid w) (Some alpha).

(** Stores the new extended style and returns the previous one; 0 for
    an identifier that names no window. *)
Definition SetWindowLongPtrA (hwnd nIndex dwNewLong : Z) : py Z :=
  σ ← get_os;
  match os_windows σ !! hwnd with
  | Some w =>
      if decide (nIndex = GWL_EXSTYLE) then
        _ ← set_windows (<[hwnd := with_exstyle w dwNewLong]> (os_windows σ));
        _ ← log (EvSetWindowLongPtr hwnd nIndex dwNewLong (w_exstyle w));
        mret (w_exstyle w)
      else
        _ ← log (EvSetWindowLongPtr hwnd nIndex dwNewLong 0);
        mret 0
  | None =>
      _ ← log (EvSetWindowLongPtr hwnd nIndex dwNewLong 0);
      mret 0
  end.

(** Succeeds on layered windows only; with [LWA_ALPHA] the alpha byte
    of the window is set. *)
Definition SetLayeredWindowAttributes (hwnd crKey bAlpha dwFlags : Z) : py Z :=
  σ ← get_os;
  match os_windows σ !! hwnd with
  | Some w =>
      if truthy (Z.land (w_exstyle w) WS_EX_LAYERED) then
        _ ← (if truthy (Z.land dwFlags LWA_ALPHA) then
               set_windows (<[hwnd := with_alpha w (bAlpha mod 256)]>
                              (os_windows σ))
             else mret tt);
        _ ← log (EvSetLayeredWindowAttributes hwnd crKey bAlpha dwFlags 1);
        mret 1
      else
        _ ← log (EvSetLayeredWindowAttributes hwnd crKey bAlpha dwFlags 0);
        mret 0
  | None =>
      _ ← log (EvSetLayeredWindowAttributes hwnd crKey bAlpha dwFlags 0);
      mret 0
  end.

(** [lpdwProcessId] is the [c_ulong] passed by reference: it is
    overwritten for a window, and left as it is otherwise. *)
Definition GetWindowThreadProcessId (hwnd lpdwProcessId : Z) : py (Z * Z) :=
  σ ← get_os;
  let '(ret, pid) := match os_windows σ !! hwnd with
                     | Some w => (w_thread w, w_pid w)
                     | None => (0, lpdwProcessId)
                     end in
  _ ← log (EvGetWindowThreadProcessId hwnd ret);
  mret (ret, pid).

(** Can a handle with the given access be opened on [pid]?  Process 0
    (the idle process) can never be opened; the model grants
    [PROCESS_QUERY_LIMITED_INFORMATION] where the process allows it and
    no other access. *)
Definition can_open (σ : os) (dwDesiredAccess pid : Z) : bool :=
  match os_processes σ !! pid with
  | Some p =>
      bool_decide (pid ≠ 0)
      && bool_decide (dwDesiredAccess = PROCESS_QUERY_LIMITED_INFORMATION)
      && p_access p
  | None => false
  end.

Definition OpenProcess (dwDesiredAccess : Z) (bInheritHandle : bool)
    (dwProcessId : Z) : py Z :=
  σ ← get_os;
  if can_open σ dwDesiredAccess dwProcessId then
    let h := handle_of_slot (length (os_handles σ)) in
    _ ← set_handles (os_handles σ ++ [Some dwProcessId]);
    _ ← log (EvOpenProcess dwDesiredAccess dwProcessId h);
    mret h
  else
    _ ← log (EvOpenProcess dwDesiredAccess dwProcessId 0);
    mret 0.

(** The image path of a process, and of the process behind an open
    handle, when the query can answer within [size] characters
    (terminator included). *)
Definition process_image (p : process) (size : Z) : option string :=
  path ← p_image p;
  if decide (Z.of_nat (String.length path) < size) then Some path else None.

Definition image_query (σ : os) (hProcess size : Z) : option string :=
  pid ← handle_target σ hProcess;
  p ← os_processes σ !! pid;
  process_image p size.

(** [lpdwSize] is passed by reference: on success it receives the
    number of characters written, terminator not counted.  When the
    path does not fit the call fails and nothing is written. *)
Definition QueryFullProcessImageNameW (hProcess dwFlags : Z)
    (lpExeName : list ascii) (lpdwSize : Z) : py (Z * list ascii * Z) :=
  σ ← get_os;
  let '(ret, out, size) :=
    match image_query σ hProcess lpdwSize with
    | Some path =>
        (1, poke (list_ascii_of_string path ++ [NUL]) lpExeName,
         Z.of_nat (String.length path))
    | None => (0, lpExeName, lpdwSize)
    end in
  _ ← log (EvQueryFullProcessImageNameW hProcess (length lpExeName) lpdwSize ret);
  mret (ret, out, size).

Definition CloseHandle (hObject : Z) : py Z :=
  σ ← get_os;
  match handle_target σ hObject, slot_of_handle hObject with
  | Some _, Some i =>
      _ ← set_handles (<[i := None]> (os_handles σ));
      _ ← log (EvCloseHandle hObject 1);
      mret 1
  | _, _ =>
      _ ← log (EvCloseHandle hObject 0);
      mret 0
  end.

(** ** Python strings and lists *)

(** [s.split(sep)] for a separator of one character. *)
Fixpoint split (s : string) (sep : ascii) : list string :=
  match s with
  | EmptyString => [""]
  | String c s =>
      if decide (c = sep) then "" :: split s sep
      else match split s sep with
           | piece :: pieces => String c piece :: pieces
           | [] => [String c ""]
           end
  end.

(** [l[-1]]: the last element; [IndexError] on an empty list. *)
Definition item_minus_1 {A} (l : list A) : py A :=
  match last l with
  | Some x => mret x
  | None => py_raise IndexError
  end.

Definition backslash : ascii := "\"%char.

(** ** The module's functions: opacity and process name *)

Definition set_window_opacity (hwnd opacity : Z) : py unit :=
  exstyle ← GetWindowLongPtrA hwnd GWL_EXSTYLE;
  _ ← SetWindowLongPtrA hwnd GWL_EXSTYLE (Z.lor exstyle WS_EX_LAYERED);
  _ ← SetLayeredWindowAttributes hwnd 0 opacity LWA_ALPHA;
  mret tt.

Definition get_process_name_from_hwnd (hwnd : Z) : py string :=
  let pid := 0 in
  '(_, pid) ← GetWindowThreadProcessId hwnd pid;
  process_handle ← OpenProcess PROCESS_QUERY_LIMITED_INFORMATION false pid;
  if negb (truthy process_handle) then mret ""
  else
    buffer ← create_unicode_buffer 260;
    let size := 260 in
    '(ok, buffer, size) ←
      QueryFullProcessImageNameW process_handle 0 buffer size;
    process_name ←
      (if truthy ok then
         let full_path := value buffer in
         item_minus_1 (split full_path backslash)
       else mret "");
    _ ← CloseHandle process_handle;
    mret process_name.

(** ** The foreign-call boundary

    The module declares no [argtypes], so [ctypes] converts every
    Python [int] that is passed to a native call: the value must fit
    the platform's C long or unsigned long, otherwise the call raises
    [ArgumentError] (int too long to convert) before the native
    function runs; a value that fits is cut down to a C int, that is,
    wrapped to 32 bits.  The width of C long depends on the data model:
    32 bits on Windows, 64 bits where the module runs against a
    stand-in for [windll] on a 64-bit Unix. *)

Inductive data_model := LLP64 | LP64.

Definition long_bits (dm : data_model) : Z :=
  match dm with
  | LLP64 => 32
  | LP64 => 64
  end.

(** The C int in the low 32 bits of [v]. *)
Definition c_int (v : Z) : Z := (v + 2 ^ 31) mod 2 ^ 32 - 2 ^ 31.

(** From [LONG_MIN] to [ULONG_MAX]. *)
Definition ctypes_accepts (dm : data_model) (v : Z) : Prop :=
  - 2 ^ (long_bits dm - 1) ≤ v ≤ 2 ^ long_bits dm - 1.

#[global] Instance ctypes_accepts_dec dm v : Decision (ctypes_accepts dm v).
Proof. unfold ctypes_accepts. apply _. Defined.

Definition as_parameter (dm : data_model) (v : Z) : py Z :=
  if decide (ctypes_accepts dm v) then mret (c_int v)
  else py_raise ArgumentError.

(** The functions as Python calls them.  The caller's integers are
    converted at each native call they are passed to; what comes back
    from a native call is a C int and is passed on as it is. *)
Module Ctypes.

Definition get_title_from_hwnd (dm : data_model) (hwnd : Z) : py string :=
  length ← (h ← as_parameter dm hwnd; GetWindowTextLengthW h);
  buff ← create_unicode_buffer (length + 1);
  '(_, buff) ← (h ← as_parameter dm hwnd;
                GetWindowTextW h buff (length + 1));
  mret (value buff).

Definition set_window_opacity (dm : data_model) (hwnd opacity : Z) : py unit :=
  exstyle ← (h ← as_parameter dm hwnd; GetWindowLongPtrA h GWL_EXSTYLE);
  _ ← (h ← as_parameter dm hwnd;
       SetWindowLongPtrA h GWL_EXSTYLE (Z.lor exstyle WS_EX_LAYERED));
  _ ← (h ← as_parameter dm hwnd;
       bAlpha ← as_parameter dm opacity;
       SetLayeredWindowAttributes h 0 bAlpha LWA_ALPHA);
  mret tt.

Definition get_process_name_from_hwnd (dm : data_model) (hwnd : Z)
    : py string :=
  let pid := 0 in
  '(_, pid) ← (h ← as_parameter dm hwnd; GetWindowThreadProcessId h pid);
  process_handle ← OpenProcess PROCESS_QUERY_LIMITED_INFORMATION false pid;
  if negb (truthy process_handle) then mret ""
  else
    buffer ← create_unicode_buffer 260;
    let size := 260 in
    '(ok, buffer, size) ←
      QueryFullProcessImageNameW process_handle 0 buffer size;
    process_name ←
      (if truthy ok then
         let full_path := value buffer in
         item_minus_1 (split full_path backslash)
       else mret "");
    _ ← CloseHandle process_handle;
    mret process_name.

End Ctypes.

(** * Specification vocabulary

    The definitions below are what the statements are written with:
    the platform after some more logged calls, what each native read
    reports for an identifier, the dictionary a walk builds, and the
    conditions on a window that the two enumerations filter by. *)

(** The platform with [evs] added to its call log and nothing else
    changed. *)
Definition add_trace (σ : os) (evs : list event) : os :=
  OS (os_windows σ) (os_processes σ) (os_handles σ) (os_trace σ ++ evs).

(** Text without a NUL character, as every NUL-terminated string is. *)
Definition nul_free (s : string) : Prop := NUL ∉ list_ascii_of_string s.

(** The title that [get_title_from_hwnd] reads back for a window text. *)
Definition c_string (s : string) : string :=
  value (list_ascii_of_string s ++ [NUL]).

(** What the native reads report for an identifier. *)
Definition reported_title (ws : gmap Z window) (hwnd : Z) : string :=
  match ws !! hwnd with
  | Some w => c_string (w_text w)
  | None => ""
  end.

Definition reported_length (ws : gmap Z window) (hwnd : Z) : Z :=
  match ws !! hwnd with
  | Some w => Z.of_nat (String.length (w_text w))
  | None => 0
  end.

Definition reported_visible (ws : gmap Z window) (hwnd : Z) : Z :=
  match ws !! hwnd with
  | Some w => Z_of_bool (w_visible w)
  | None => 0
  end.

Definition reported_exstyle (ws : gmap Z window) (hwnd : Z) : Z :=
  match ws !! hwnd with
  | Some w => w_exstyle w
  | None => 0
  end.

Definition reported_owner (ws : gmap Z window) (hwnd : Z) : Z :=
  match ws !! hwnd with
  | Some w => w_owner w
  | None => 0
  end.

(** The effect of one callback on the dictionary. *)
Definition all_windows_step (ws : gmap Z window) (windows : gmap Z string)
    (hwnd : Z) : gmap Z string :=
  if truthy (reported_visible ws hwnd) && str_truthy (reported_title ws hwnd)
  then <[hwnd := reported_title ws hwnd]> windows
  else windows.

Definition user_windows_step (ws : gmap Z window) (windows : gmap Z string)
    (hwnd : Z) : gmap Z string :=
  if truthy (reported_visible ws hwnd)
     && negb (truthy (Z.land (reported_exstyle ws hwnd) WS_EX_TOOLWINDOW))
     && negb (truthy (reported_owner ws hwnd))
     && str_truthy (reported_title ws hwnd)
  then <[hwnd := reported_title ws hwnd]> windows
  else windows.

(** A callback that always asks for the walk to go on, and only logs. *)
Definition steady {S} (cb : Z → Z → S → py (bool * S))
    (step : gmap Z window → S → Z → S) : Prop :=
  ∀ hwnd l_param s σ, ∃ evs,
    cb hwnd l_param s σ = (Ok (true, step (os_windows σ) s hwnd), add_trace σ evs).

(** The dictionary after a whole walk. *)
Definition all_windows_of (ws : gmap Z window) : gmap Z string :=
  foldl (all_windows_step ws) ∅ (map_to_list ws).*1.

Definition user_windows_of (ws : gmap Z window) : gmap Z string :=
  foldl (user_windows_step ws) ∅ (map_to_list ws).*1.

(** The two filter predicates, as conditions on a window. *)
Definition visible_and_titled (w : window) : Prop :=
  w_visible w = true ∧ w_text w ≠ "".

Definition user_facing (w : window) : Prop :=
  w_visible w = true
  ∧ Z.land (w_exstyle w) WS_EX_TOOLWINDOW = 0
  ∧ w_owner w = 0
  ∧ w_text w ≠ "".

#[global] Instance visible_and_titled_dec w : Decision (visible_and_titled w).
Proof. unfold visible_and_titled. apply _. Defined.

#[global] Instance user_facing_dec w : Decision (user_facing w).
Proof. unfold user_facing. apply _. Defined.

(** Window texts are NUL-terminated strings: they hold no NUL. *)
Definition nul_free_titles (ws : gmap Z window) : Prop :=
  map_Forall (λ _ w, nul_free (w_text w)) ws.

(** What [GetWindowThreadProcessId] reports for an identifier, given
    the zeroed [c_ulong] that the module passes. *)
Definition owner_thread (ws : gmap Z window) (hwnd : Z) : Z :=
  match ws !! hwnd with
  | Some w => w_thread w
  | None => 0
  end.

Definition owner_pid (ws : gmap Z window) (hwnd : Z) : Z :=
  match ws !! hwnd with
  | Some w => w_pid w
  | None => 0
  end.





(** [s] ends with the character [c]. *)
Definition ends_with (s : string) (c : ascii) : Prop :=
  ∃ d, s = (d +:+ String c "").

(** * Scenarios

    Window A is visible, titled, unowned and no tool window; window B
    is a visible tool window without title; window C is a dialog owned
    by A; window D belongs to a process whose image path is longer than
    a 260-character buffer. *)

Definition notepad_exe : string := "C:\Windows\System32\notepad.exe".

Definition deep_exe : string :=
  "C:\" +:+ string_of_list_ascii (replicate 300 "d"%char) +:+ "\deep.exe".

Definition window_A : window := Window true 0 0 "Notepad" 11 100 None.
Definition window_B : window := Window true WS_EX_TOOLWINDOW 0 "" 11 100 None.
Definition window_C : window := Window true 0 1 "Dialog" 11 100 None.
Definition window_D : window := Window true 0 0 "Deep" 21 200 None.

Definition process_table : gmap Z process :=
  <[100 := Process true (Some notepad_exe)]>
    (<[200 := Process true (Some deep_exe)]>
       (<[300 := Process false None]> ∅)).

Definition desk_AB : os :=
  OS (<[1 := window_A]> (<[2 := window_B]> ∅)) process_table [] [].

(** Window H has an identifier that 2147483649 wraps to. *)
Definition window_H : window := Window true 0 0 "High" 11 100 None.

Definition desk_H : os :=
  OS (<[-2147483647 := window_H]> ∅) process_table [] [].

Definition desk_ABCD : os :=
  OS (<[1 := window_A]> (<[2 := window_B]> (<[3 := window_C]>
        (<[4 := window_D]> ∅))))
     process_table [] [].

(** Closes a decidable closed goal by evaluation. *)
Ltac by_evaluation := apply (bool_decide_unpack _); vm_compute; exact I.


(** * Vocabulary for the further properties *)

(** [t] is the beginning of [s]. *)
Definition starts_with (s t : string) : Prop :=
  ∃ rest, s = (t +:+ rest).

(** What a callback may log during a walk over windows: reads of
    window state, and fills that ask for exactly as many characters as
    the buffer holds.  The start of a walk is not among them. *)
Definition window_read (e : event) : Prop :=
  match e with
  | EvIsWindowVisible _ _ => True
  | EvGetWindowTextLengthW _ _ => True
  | EvGetWindowTextW _ capacity nMaxCount _ => nMaxCount = Z.of_nat capacity
  | EvGetWindowLongPtr _ _ _ => True
  | EvGetWindow _ _ _ => True
  | _ => False
  end.

(** A callback that always asks for the walk to go on, and logs only
    events that satisfy [P]. *)
Definition steady_logging {S} (P : event → Prop)
    (cb : Z → Z → S → py (bool * S))
    (step : gmap Z window → S → Z → S) : Prop :=
  ∀ hwnd l_param s σ, ∃ evs,
    cb hwnd l_param s σ = (Ok (true, step (os_windows σ) s hwnd), add_trace σ evs)
    ∧ Forall P evs.

(** The C int range. *)
Definition in_c_int (v : Z) : Prop := - 2 ^ 31 ≤ v < 2 ^ 31.

(** The registry once [hwnd] has been made layered. *)
Definition with_layered (ws : gmap Z window) (hwnd : Z) : gmap Z window :=
  match ws !! hwnd with
  | Some w =>
      <[hwnd := with_exstyle w (Z.lor (w_exstyle w) WS_EX_LAYERED)]> ws
  | None => ws
  end.

(** The registry after [set_window_opacity hwnd opacity]. *)
Definition with_opacity (ws : gmap Z window) (hwnd opacity : Z)
    : gmap Z window :=
  match ws !! hwnd with
  | Some w =>
      <[hwnd := with_alpha (with_exstyle w (Z.lor (w_exstyle w) WS_EX_LAYERED))
                           (opacity mod 256)]> ws
  | None => ws
  end.

(** * Verification *)

(** ** Running the monad *)

Lemma add_trace_add_trace σ evs1 evs2 :
  add_trace (add_trace σ evs1) evs2 = add_trace σ (evs1 ++ evs2).
Proof. unfold add_trace; simpl. by rewrite <- (assoc_L (++)). Qed.

Lemma add_trace_nil σ : add_trace σ [] = σ.
Proof. destruct σ; unfold add_trace; simpl. by rewrite app_nil_r. Qed.

Lemma run_bind {A B} (m : py A) (f : A → py B) σ :
  (m ≫= f) σ = match m σ with
               | (Ok a, σ') => f a σ'
               | (Raise e, σ') => (Raise e, σ')
               end.
Proof. reflexivity. Qed.

Lemma run_bind_ok {A B} (m : py A) (f : A → py B) σ a σ' :
  m σ = (Ok a, σ') → (m ≫= f) σ = f a σ'.
Proof. intros H. by rewrite run_bind, H. Qed.

Lemma run_ret {A} (a : A) σ : (mret a : py A) σ = (Ok a, σ).
Proof. reflexivity. Qed.

(** Runs the first call of a sequence with the given run lemma. *)
Ltac py_run lem := erewrite run_bind_ok; [| apply lem; try done].

(** ** Buffers *)

Lemma length_list_ascii_of_string s :
  length (list_ascii_of_string s) = String.length s.
Proof. induction s; simpl; congruence. Qed.

Lemma value_nul_free s rest :
  nul_free s → value (list_ascii_of_string s ++ NUL :: rest) = s.
Proof.
  unfold nul_free. induction s as [|c s IH]; simpl; intros Hs.
  - done.
  - apply not_elem_of_cons in Hs as [Hc Hs].
    destruct (decide (c = NUL)); [congruence|]. by rewrite IH.
Qed.

Lemma poke_exact src buffer :
  length src = length buffer → poke src buffer = src.
Proof.
  intros H. unfold poke. rewrite H, firstn_all2 by lia.
  rewrite drop_all. apply app_nil_r.
Qed.

Lemma create_unicode_buffer_run n σ :
  0 ≤ n → create_unicode_buffer n σ = (Ok (replicate (Z.to_nat n) NUL), σ).
Proof. intros Hn. unfold create_unicode_buffer. by rewrite decide_False by lia. Qed.

Lemma GetWindowTextLengthW_run hwnd σ :
  GetWindowTextLengthW hwnd σ =
    (Ok (reported_length (os_windows σ) hwnd),
     add_trace σ [EvGetWindowTextLengthW hwnd
                    (reported_length (os_windows σ) hwnd)]).
Proof. reflexivity. Qed.

(** The fill, as [get_title_from_hwnd] issues it: a zeroed buffer of
    the reported length plus one. *)
Lemma GetWindowTextW_run hwnd σ :
  let n := reported_length (os_windows σ) hwnd in
  ∃ buff,
    GetWindowTextW hwnd (replicate (Z.to_nat (n + 1)) NUL) (n + 1) σ =
      (Ok (n, buff),
       add_trace σ [EvGetWindowTextW hwnd (Z.to_nat (n + 1)) (n + 1) n])
    ∧ value buff = reported_title (os_windows σ) hwnd.
Proof.
  unfold reported_length, reported_title, GetWindowTextW.
  destruct σ as [ws ps hs tr]; simpl.
  destruct (ws !! hwnd) as [w|] eqn:Hw.
  - unfold c_string.
    exists (list_ascii_of_string (w_text w) ++ [NUL]).
    rewrite run_bind; simpl. rewrite Hw.
    rewrite <- (length_list_ascii_of_string (w_text w)).
    generalize (list_ascii_of_string (w_text w)) as chars. intros chars.
    rewrite decide_True by lia.
    replace (Z.to_nat (Z.of_nat (List.length chars) + 1 - 1))
      with (List.length chars) by lia.
    rewrite firstn_all, poke_exact.
    2:{ rewrite length_app, length_replicate; simpl. lia. }
    rewrite length_replicate. done.
  - exists (replicate (Z.to_nat (0 + 1)) NUL).
    rewrite run_bind; simpl. rewrite Hw. done.
Qed.

Lemma get_title_from_hwnd_run σ hwnd :
  let n := reported_length (os_windows σ) hwnd in
  get_title_from_hwnd hwnd σ =
    (Ok (reported_title (os_windows σ) hwnd),
     add_trace σ [EvGetWindowTextLengthW hwnd n;
                  EvGetWindowTextW hwnd (Z.to_nat (n + 1)) (n + 1) n]).
Proof.
  intros n. unfold get_title_from_hwnd.
  py_run GetWindowTextLengthW_run.
  assert (0 ≤ n) by (unfold n, reported_length; destruct (_ !! _); lia).
  py_run create_unicode_buffer_run; [|fold n; lia].
  destruct (GetWindowTextW_run hwnd (add_trace σ [EvGetWindowTextLengthW hwnd n]))
    as (buff & Hrun & Hval).
  simpl in Hrun. fold n in Hrun. simpl. fold n.
  py_run Hrun. simpl. rewrite run_ret, Hval. rewrite add_trace_add_trace. done.
Qed.

(** ** Native reads leave the platform as it is *)

Lemma IsWindowVisible_run hwnd σ :
  IsWindowVisible hwnd σ =
    (Ok (reported_visible (os_windows σ) hwnd),
     add_trace σ [EvIsWindowVisible hwnd
                    (reported_visible (os_windows σ) hwnd)]).
Proof. reflexivity. Qed.

Lemma GetWindowLongPtr_EXSTYLE_run hwnd σ :
  get_window_long hwnd GWL_EXSTYLE σ =
    (Ok (reported_exstyle (os_windows σ) hwnd),
     add_trace σ [EvGetWindowLongPtr hwnd GWL_EXSTYLE
                    (reported_exstyle (os_windows σ) hwnd)]).
Proof.
  unfold get_window_long, reported_exstyle. rewrite run_bind; simpl.
  destruct (os_windows σ !! hwnd); reflexivity.
Qed.

Lemma GetWindow_OWNER_run hwnd σ :
  GetWindow hwnd GW_OWNER σ =
    (Ok (reported_owner (os_windows σ) hwnd),
     add_trace σ [EvGetWindow hwnd GW_OWNER
                    (reported_owner (os_windows σ) hwnd)]).
Proof.
  unfold GetWindow, reported_owner. rewrite run_bind; simpl.
  destruct (os_windows σ !! hwnd); reflexivity.
Qed.

(** ** One step of each enumeration *)

Lemma all_windows_proc_callback_steady :
  steady all_windows_proc_callback all_windows_step.
Proof.
  intros hwnd l_param windows σ.
  unfold all_windows_proc_callback, all_windows_step.
  py_run IsWindowVisible_run.
  destruct (truthy (reported_visible (os_windows σ) hwnd)); simpl.
  - py_run get_title_from_hwnd_run. simpl.
    rewrite add_trace_add_trace.
    destruct (str_truthy _); eexists; reflexivity.
  - eexists; reflexivity.
Qed.

Lemma user_windows_proc_callback_steady :
  steady user_windows_proc_callback user_windows_step.
Proof.
  intros hwnd l_param windows σ.
  unfold user_windows_proc_callback, user_windows_step, GetWindowLongPtrW.
  py_run IsWindowVisible_run.
  destruct (truthy (reported_visible (os_windows σ) hwnd)); simpl;
    [|eexists; reflexivity].
  py_run GetWindowLongPtr_EXSTYLE_run. simpl.
  destruct (truthy (Z.land _ _)); simpl;
    [rewrite add_trace_add_trace; eexists; reflexivity|].
  py_run GetWindow_OWNER_run. simpl.
  destruct (truthy (reported_owner _ _)); simpl;
    [rewrite !add_trace_add_trace; eexists; reflexivity|].
  py_run get_title_from_hwnd_run. simpl.
  rewrite !add_trace_add_trace.
  destruct (str_truthy _); eexists; reflexivity.
Qed.

Lemma enum_walk_steady {S} (cb : Z → Z → S → py (bool * S)) step :
  steady cb step →
  ∀ hwnds l_param s σ, ∃ evs,
    enum_walk cb l_param hwnds s σ =
      (Ok (1, foldl (step (os_windows σ)) s hwnds), add_trace σ evs).
Proof.
  intros Hcb hwnds l_param. induction hwnds as [|hwnd hwnds IH]; intros s σ.
  - exists []. by rewrite add_trace_nil.
  - destruct (Hcb hwnd l_param s σ) as [evs1 Hrun]. simpl.
    py_run Hrun. simpl.
    destruct (IH (step (os_windows σ) s hwnd) (add_trace σ evs1)) as [evs2 ->].
    rewrite add_trace_add_trace. eexists; reflexivity.
Qed.

Lemma EnumWindows_steady {S} (cb : Z → Z → S → py (bool * S)) step :
  steady cb step →
  ∀ l_param s σ, ∃ evs,
    EnumWindows cb l_param s σ =
      (Ok (1, foldl (step (os_windows σ)) s (map_to_list (os_windows σ)).*1),
       add_trace σ evs).
Proof.
  intros Hcb l_param s σ. unfold EnumWindows.
  rewrite run_bind; simpl. rewrite run_bind; simpl.
  destruct (enum_walk_steady cb step Hcb (map_to_list (os_windows σ)).*1
              l_param s (add_trace σ [EvEnumWindows l_param])) as [evs Hrun].
  simpl in Hrun. unfold add_trace at 1 in Hrun. rewrite Hrun.
  rewrite add_trace_add_trace. eexists; reflexivity.
Qed.

(** ** What a walk leaves in the dictionary *)

Lemma foldl_keep_lookup (keep : Z → bool) (val : Z → string) hwnds
    (s : gmap Z string) (h : Z) :
  foldl (λ s k, if keep k then <[k := val k]> s else s) s hwnds !! h =
    if bool_decide (h ∈ hwnds) && keep h then Some (val h) else s !! h.
Proof.
  revert s. induction hwnds as [|k hwnds IH]; intros s; simpl.
  - done.
  - rewrite IH. destruct (decide (h = k)) as [->|Hne].
    + rewrite (bool_decide_eq_true_2 (k ∈ k :: hwnds)) by left.
      destruct (keep k); simpl.
      * rewrite lookup_insert_eq. by destruct (bool_decide _).
      * by rewrite andb_false_r.
    + assert (bool_decide (h ∈ k :: hwnds) = bool_decide (h ∈ hwnds)) as ->.
      { apply bool_decide_ext. rewrite elem_of_cons. intuition congruence. }
      destruct (bool_decide (h ∈ hwnds) && keep h); [done|].
      destruct (keep k); [by rewrite lookup_insert_ne|done].
Qed.

Lemma elem_of_registry_keys (ws : gmap Z window) hwnd w :
  ws !! hwnd = Some w → hwnd ∈ (map_to_list ws).*1.
Proof.
  intros Hw. apply list_elem_of_fmap. exists (hwnd, w). split; [done|].
  by apply elem_of_map_to_list.
Qed.

Lemma get_all_windows_run σ :
  ∃ evs, get_all_windows σ = (Ok (all_windows_of (os_windows σ)), add_trace σ evs).
Proof.
  unfold get_all_windows.
  destruct (EnumWindows_steady _ _ all_windows_proc_callback_steady 0 ∅ σ)
    as [evs Hrun].
  py_run Hrun. by exists evs.
Qed.

Lemma get_all_user_windows_run σ :
  ∃ evs,
    get_all_user_windows σ = (Ok (user_windows_of (os_windows σ)), add_trace σ evs).
Proof.
  unfold get_all_user_windows.
  destruct (EnumWindows_steady _ _ user_windows_proc_callback_steady 0 ∅ σ)
    as [evs Hrun].
  py_run Hrun. by exists evs.
Qed.

Lemma all_windows_of_lookup ws hwnd :
  all_windows_of ws !! hwnd =
    match ws !! hwnd with
    | Some w =>
        if w_visible w && str_truthy (c_string (w_text w))
        then Some (c_string (w_text w)) else None
    | None => None
    end.
Proof.
  unfold all_windows_of, all_windows_step.
  rewrite (foldl_keep_lookup
             (λ k, truthy (reported_visible ws k)
                   && str_truthy (reported_title ws k))
             (reported_title ws)).
  rewrite lookup_empty. unfold reported_visible, reported_title.
  destruct (ws !! hwnd) as [w|] eqn:Hw.
  - rewrite bool_decide_eq_true_2 by eauto using elem_of_registry_keys.
    by destruct (w_visible w).
  - by rewrite andb_false_r.
Qed.

Lemma truthy_false z : truthy z = false ↔ z = 0.
Proof. unfold truthy. rewrite negb_false_iff. apply Z.eqb_eq. Qed.

Lemma truthy_true z : truthy z = true ↔ z ≠ 0.
Proof. unfold truthy. rewrite negb_true_iff. apply Z.eqb_neq. Qed.

Lemma user_windows_of_lookup ws hwnd :
  user_windows_of ws !! hwnd =
    match ws !! hwnd with
    | Some w =>
        if w_visible w
           && negb (truthy (Z.land (w_exstyle w) WS_EX_TOOLWINDOW))
           && negb (truthy (w_owner w))
           && str_truthy (c_string (w_text w))
        then Some (c_string (w_text w)) else None
    | None => None
    end.
Proof.
  unfold user_windows_of, user_windows_step.
  rewrite (foldl_keep_lookup
             (λ k, truthy (reported_visible ws k)
                   && negb (truthy (Z.land (reported_exstyle ws k)
                                           WS_EX_TOOLWINDOW))
                   && negb (truthy (reported_owner ws k))
                   && str_truthy (reported_title ws k))
             (reported_title ws)).
  rewrite lookup_empty.
  unfold reported_visible, reported_exstyle, reported_owner, reported_title.
  destruct (ws !! hwnd) as [w|] eqn:Hw.
  - rewrite bool_decide_eq_true_2 by eauto using elem_of_registry_keys.
    by destruct (w_visible w).
  - by rewrite andb_false_r.
Qed.

Lemma c_string_nul_free s : nul_free s → c_string s = s.
Proof. apply value_nul_free. Qed.

Lemma c_string_empty : c_string "" = "".
Proof. reflexivity. Qed.

Lemma str_truthy_true s : str_truthy s = true ↔ s ≠ "".
Proof. destruct s; simpl; split; congruence. Qed.

Lemma all_windows_of_lookup_nul_free ws hwnd w :
  ws !! hwnd = Some w → nul_free (w_text w) →
  all_windows_of ws !! hwnd =
    if decide (visible_and_titled w) then Some (w_text w) else None.
Proof.
  intros Hw Hnul. rewrite all_windows_of_lookup, Hw, c_string_nul_free by done.
  destruct (decide (visible_and_titled w)) as [[Hv Ht]|Hn].
  - apply str_truthy_true in Ht. by rewrite Hv, Ht.
  - destruct (w_visible w) eqn:Hv; [|done].
    destruct (str_truthy (w_text w)) eqn:Ht; [|done].
    destruct Hn. split; [done|]. by apply str_truthy_true.
Qed.

Lemma user_windows_of_lookup_nul_free ws hwnd w :
  ws !! hwnd = Some w → nul_free (w_text w) →
  user_windows_of ws !! hwnd =
    if decide (user_facing w) then Some (w_text w) else None.
Proof.
  intros Hw Hnul. rewrite user_windows_of_lookup, Hw, c_string_nul_free by done.
  destruct (decide (user_facing w)) as [(Hv & Hs & Ho & Ht)|Hn].
  - apply str_truthy_true in Ht. apply truthy_false in Hs, Ho.
    by rewrite Hv, Hs, Ho, Ht.
  - destruct (w_visible w) eqn:Hv; [|done].
    destruct (truthy (Z.land _ _)) eqn:Hs; [done|].
    destruct (truthy (w_owner w)) eqn:Ho; [done|].
    destruct (str_truthy (w_text w)) eqn:Ht; [|done].
    destruct Hn. apply truthy_false in Hs, Ho. apply str_truthy_true in Ht.
    done.
Qed.


Lemma all_windows_of_filter ws :
  nul_free_titles ws →
  all_windows_of ws = w_text <$> filter (λ kw, visible_and_titled kw.2) ws.
Proof.
  intros Hnul. apply map_eq; intros hwnd.
  rewrite lookup_fmap, map_lookup_filter.
  destruct (ws !! hwnd) as [w|] eqn:Hw; simpl.
  - rewrite (all_windows_of_lookup_nul_free ws hwnd w) by eauto.
    destruct (decide (visible_and_titled w)).
    + by rewrite option_guard_True.
    + by rewrite option_guard_False.
  - by rewrite all_windows_of_lookup, Hw.
Qed.

(** * The enumerations *)

(** C1: a window of the registry is in the result of
    [get_all_user_windows], mapped to its title, if and only if it is
    visible, its extended style has no tool-window bit, it has no owner
    and its title is not empty; otherwise it is left out, and in either
    case the callback answers true, so the walk goes on to the next
    window. *)
Theorem get_all_user_windows_user_facing σ hwnd w :
  os_windows σ !! hwnd = Some w →
  nul_free (w_text w) →
  ∃ windows σ',
    get_all_user_windows σ = (Ok windows, σ')
    ∧ (windows !! hwnd = Some (w_text w) ↔ user_facing w)
    ∧ (windows !! hwnd = None ↔ ¬ user_facing w)
    ∧ (∀ l_param s σ0, ∃ s' σ0',
         user_windows_proc_callback hwnd l_param s σ0 = (Ok (true, s'), σ0')).
Proof.
  intros Hw Hnul. destruct (get_all_user_windows_run σ) as [evs Hrun].
  eexists _, _. split; [exact Hrun|].
  rewrite (user_windows_of_lookup_nul_free _ hwnd w) by done.
  split; [|split].
  - split; [by case_decide|]. intros Hu. by rewrite decide_True.
  - split; [by case_decide|]. intros Hu. by rewrite decide_False.
  - intros l_param s σ0.
    destruct (user_windows_proc_callback_steady hwnd l_param s σ0) as [? ->].
    by eexists _, _.
Qed.

(** C2: a window of the registry is in the result of [get_all_windows],
    mapped to its title, if and only if it is visible and its title is
    not empty; identifiers outside the registry are not in the result,
    and the result has as many entries as there are windows passing the
    predicate. *)
Theorem get_all_windows_visible_titled σ :
  nul_free_titles (os_windows σ) →
  ∃ windows σ',
    get_all_windows σ = (Ok windows, σ')
    ∧ (∀ hwnd w, os_windows σ !! hwnd = Some w →
         (windows !! hwnd = Some (w_text w) ↔ visible_and_titled w)
         ∧ (windows !! hwnd = None ↔ ¬ visible_and_titled w))
    ∧ (∀ hwnd, os_windows σ !! hwnd = None → windows !! hwnd = None)
    ∧ size windows
        = size (filter (λ kw, visible_and_titled kw.2) (os_windows σ)).
Proof.
  intros Hnul. destruct (get_all_windows_run σ) as [evs Hrun].
  eexists _, _. split; [exact Hrun|]. split; [|split].
  - intros hwnd w Hw.
    rewrite (all_windows_of_lookup_nul_free _ hwnd w) by eauto.
    case_decide; split; split; try done; congruence.
  - intros hwnd Hw. by rewrite all_windows_of_lookup, Hw.
  - by rewrite all_windows_of_filter, map_size_fmap.
Qed.

(** C3: over the same registry state the result of
    [get_all_user_windows] is a subset of the result of
    [get_all_windows]: every entry of the first is an entry of the
    second, with the same title. *)
Theorem get_all_user_windows_subseteq σ :
  ∃ user all σ1 σ2,
    get_all_user_windows σ = (Ok user, σ1)
    ∧ get_all_windows σ = (Ok all, σ2)
    ∧ user ⊆ all.
Proof.
  destruct (get_all_user_windows_run σ) as [evs1 Hrun1].
  destruct (get_all_windows_run σ) as [evs2 Hrun2].
  eexists _, _, _, _. split; [exact Hrun1|]. split; [exact Hrun2|].
  apply map_subseteq_spec. intros hwnd title.
  rewrite user_windows_of_lookup, all_windows_of_lookup.
  destruct (os_windows σ !! hwnd) as [w|]; [|done].
  destruct (w_visible w); [|done]. simpl.
  destruct (negb _); [|done]. destruct (negb _); [|done]. done.
Qed.

(** C4: a window whose title text is empty is in the result of neither
    enumeration, whatever its visibility, style and owner. *)
Theorem empty_title_absent σ hwnd w :
  os_windows σ !! hwnd = Some w →
  w_text w = "" →
  ∃ all user σ1 σ2,
    get_all_windows σ = (Ok all, σ1)
    ∧ get_all_user_windows σ = (Ok user, σ2)
    ∧ all !! hwnd = None
    ∧ user !! hwnd = None.
Proof.
  intros Hw Htext.
  destruct (get_all_windows_run σ) as [evs1 Hrun1].
  destruct (get_all_user_windows_run σ) as [evs2 Hrun2].
  eexists _, _, _, _. split; [exact Hrun1|]. split; [exact Hrun2|].
  rewrite all_windows_of_lookup, user_windows_of_lookup, Hw, Htext.
  rewrite c_string_empty. simpl. by rewrite !andb_false_r.
Qed.

(** On C ints: for an identifier that names no window, or a window with no
    title, [get_title_from_hwnd] returns the empty text and raises
    nothing; it asks for the length (0 here), creates a buffer of that
    length plus one, and has it filled with that size. *)
Lemma get_title_from_hwnd_stale_or_untitled σ hwnd :
  os_windows σ !! hwnd = None
  ∨ (∃ w, os_windows σ !! hwnd = Some w ∧ w_text w = "") →
  get_title_from_hwnd hwnd σ =
    (Ok "", add_trace σ [EvGetWindowTextLengthW hwnd 0;
                         EvGetWindowTextW hwnd 1 (0 + 1) 0]).
Proof.
  intros H. rewrite get_title_from_hwnd_run.
  unfold reported_title, reported_length.
  destruct H as [->|(w & -> & ->)]; reflexivity.
Qed.

(** * Process names *)

(** ** Handles *)

Lemma slot_of_handle_of_slot i : slot_of_handle (handle_of_slot i) = Some i.
Proof.
  unfold slot_of_handle, handle_of_slot.
  replace (4 * (Z.of_nat i + 1)) with ((Z.of_nat i + 1) * 4) by lia.
  rewrite Z_mod_mult, Z.div_mul by lia.
  rewrite decide_True by lia. f_equal. lia.
Qed.

Lemma truthy_handle_of_slot i : truthy (handle_of_slot i) = true.
Proof. apply truthy_true. unfold handle_of_slot. lia. Qed.


Lemma handle_target_new ws ps hs tr pid :
  handle_target (OS ws ps (hs ++ [Some pid]) tr) (handle_of_slot (length hs))
  = Some pid.
Proof.
  unfold handle_target. rewrite slot_of_handle_of_slot. simpl.
  by rewrite list_lookup_middle.
Qed.

(** ** Native calls on processes *)

Lemma GetWindowThreadProcessId_run hwnd σ :
  GetWindowThreadProcessId hwnd 0 σ =
    (Ok (owner_thread (os_windows σ) hwnd, owner_pid (os_windows σ) hwnd),
     add_trace σ [EvGetWindowThreadProcessId hwnd
                    (owner_thread (os_windows σ) hwnd)]).
Proof.
  unfold GetWindowThreadProcessId, owner_thread, owner_pid.
  rewrite run_bind; simpl. destruct (os_windows σ !! hwnd); reflexivity.
Qed.

Lemma OpenProcess_denied access inherit pid σ :
  can_open σ access pid = false →
  OpenProcess access inherit pid σ =
    (Ok 0, add_trace σ [EvOpenProcess access pid 0]).
Proof. intros H. unfold OpenProcess. rewrite run_bind; simpl. by rewrite H. Qed.

Lemma OpenProcess_granted access inherit pid σ :
  can_open σ access pid = true →
  let h := handle_of_slot (length (os_handles σ)) in
  OpenProcess access inherit pid σ =
    (Ok h, OS (os_windows σ) (os_processes σ) (os_handles σ ++ [Some pid])
              (os_trace σ ++ [EvOpenProcess access pid h])).
Proof. intros H. unfold OpenProcess. rewrite run_bind; simpl. by rewrite H. Qed.

Lemma QueryFullProcessImageNameW_run h flags buffer size σ :
  QueryFullProcessImageNameW h flags buffer size σ =
    match image_query σ h size with
    | Some path =>
        (Ok (1, poke (list_ascii_of_string path ++ [NUL]) buffer,
             Z.of_nat (String.length path)),
         add_trace σ [EvQueryFullProcessImageNameW h (length buffer) size 1])
    | None =>
        (Ok (0, buffer, size),
         add_trace σ [EvQueryFullProcessImageNameW h (length buffer) size 0])
    end.
Proof.
  unfold QueryFullProcessImageNameW. rewrite run_bind; simpl.
  destruct (image_query σ h size); reflexivity.
Qed.

Lemma CloseHandle_new ws ps hs tr pid :
  let h := handle_of_slot (length hs) in
  CloseHandle h (OS ws ps (hs ++ [Some pid]) tr) =
    (Ok 1, OS ws ps (hs ++ [None]) (tr ++ [EvCloseHandle h 1])).
Proof.
  intros h. unfold CloseHandle. rewrite run_bind; simpl.
  unfold h. rewrite handle_target_new, slot_of_handle_of_slot.
  rewrite run_bind; simpl.
  replace (length hs) with (length hs + 0)%nat at 2 by lia.
  by rewrite insert_app_r.
Qed.

(** ** Buffers holding a path *)

Lemma value_app_NUL chars rest :
  value (chars ++ NUL :: rest) = value (chars ++ [NUL]).
Proof.
  induction chars as [|c chars IH]; simpl; [done|].
  destruct (decide (c = NUL)); [done|]. by rewrite IH.
Qed.

Lemma value_poke_path path n :
  (String.length path < n)%nat →
  value (poke (list_ascii_of_string path ++ [NUL]) (replicate n NUL))
  = c_string path.
Proof.
  intros Hlen. unfold poke, c_string.
  rewrite <- length_list_ascii_of_string in Hlen.
  rewrite length_replicate, take_ge by (rewrite length_app; simpl; lia).
  rewrite <- (assoc_L (++)). simpl. apply value_app_NUL.
Qed.

(** ** [split] and its last piece *)

Lemma split_last s sep :
  ∃ name dir,
    last (split s sep) = Some name
    ∧ s = (dir +:+ name)
    ∧ (sep ∉ list_ascii_of_string name)
    ∧ ((dir = "" ∧ split s sep = [name])
       ∨ (ends_with dir sep ∧ (2 ≤ length (split s sep))%nat)).
Proof.
  induction s as [|c s (name & dir & Hlast & Hs & Hname & Hdir)]; simpl.
  - exists "", "". repeat split; try done.
    + apply not_elem_of_nil.
    + by left.
  - destruct (decide (c = sep)) as [->|Hc].
    + exists name, (String sep dir). split; [|split; [|split]].
      * destruct (split s sep); [done|]. by rewrite last_cons_cons.
      * simpl. by rewrite Hs.
      * done.
      * right. split.
        -- destruct Hdir as [[-> _]|[[d ->] _]].
           ++ by exists "".
           ++ by exists (String sep d).
        -- destruct (split s sep); [done|]. simpl. lia.
    + destruct Hdir as [[-> Hone]|[[d ->] Htwo]].
      * rewrite Hone. exists (String c name), "".
        split; [done|]. split; [by rewrite Hs|]. split.
        -- simpl. apply not_elem_of_cons. split; [congruence|done].
        -- by left.
      * destruct (split s sep) as [|piece [|piece' pieces]];
          [simpl in Htwo; lia..|].
        exists name, (String c (d +:+ String sep "")).
        split; [by rewrite last_cons_cons in *|].
        split; [simpl; by rewrite Hs|]. split; [done|].
        right. split; [by exists (String c d)|simpl; lia].
Qed.

(** ** The whole lookup *)

Lemma get_process_name_from_hwnd_run σ hwnd :
  let pid := owner_pid (os_windows σ) hwnd in
  let tid := owner_thread (os_windows σ) hwnd in
  let h := handle_of_slot (length (os_handles σ)) in
  if can_open σ PROCESS_QUERY_LIMITED_INFORMATION pid then
    ∃ name ok,
      get_process_name_from_hwnd hwnd σ =
        (Ok name,
         OS (os_windows σ) (os_processes σ) (os_handles σ ++ [None])
            (os_trace σ ++
               [EvGetWindowThreadProcessId hwnd tid;
                EvOpenProcess PROCESS_QUERY_LIMITED_INFORMATION pid h;
                EvQueryFullProcessImageNameW h 260 260 ok;
                EvCloseHandle h 1]))
      ∧ match os_processes σ !! pid ≫= λ p, process_image p 260 with
        | Some path =>
            ok = 1 ∧ last (split (c_string path) backslash) = Some name
        | None => ok = 0 ∧ name = ""
        end
  else
    get_process_name_from_hwnd hwnd σ =
      (Ok "",
       add_trace σ
         [EvGetWindowThreadProcessId hwnd tid;
          EvOpenProcess PROCESS_QUERY_LIMITED_INFORMATION pid 0]).
Proof.
  intros pid tid h. subst h. unfold get_process_name_from_hwnd.
  py_run GetWindowThreadProcessId_run. simpl. fold pid tid.
  destruct (can_open σ PROCESS_QUERY_LIMITED_INFORMATION pid) eqn:Hopen.
  - py_run OpenProcess_granted. simpl.
    rewrite truthy_handle_of_slot. simpl.
    py_run create_unicode_buffer_run.
    assert (Hcap : length (replicate (Z.to_nat 260) NUL) = 260%nat)
      by by rewrite length_replicate.
    remember (replicate (Z.to_nat 260) NUL) as buffer eqn:Hbuffer.
    rewrite run_bind, QueryFullProcessImageNameW_run.
    unfold image_query. rewrite handle_target_new. simpl. rewrite Hcap.
    destruct (os_processes σ !! pid ≫= λ p, process_image p 260)
      as [path|] eqn:Himg; simpl.
    + rewrite Hbuffer, value_poke_path.
      2:{ destruct (os_processes σ !! pid) as [p|]; [|done]. simpl in Himg.
          unfold process_image in Himg.
          destruct (p_image p) as [path'|]; [|done]. simpl in Himg.
          case_decide; [|done]. simplify_eq. lia. }
      unfold add_trace; simpl.
      destruct (split_last (c_string path) backslash)
        as (name & _ & Hlast & _).
      exists name, 1. split; [|done].
      rewrite run_bind. unfold item_minus_1. rewrite Hlast, run_ret.
      rewrite run_bind, CloseHandle_new. simpl.
      by rewrite <- !(assoc_L (++)).
    + exists "", 0. split; [|done].
      unfold add_trace; simpl.
      rewrite run_bind, run_ret, run_bind, CloseHandle_new. simpl.
      by rewrite <- !(assoc_L (++)).
  - py_run OpenProcess_denied. simpl.
    by rewrite add_trace_add_trace.
Qed.

Lemma can_open_pid_0 σ access : can_open σ access 0 = false.
Proof. unfold can_open. by destruct (os_processes σ !! 0). Qed.

(** On C ints: when the identifier names no window, when the process cannot
    be opened, or when the image-name query (with its 260 characters)
    cannot answer, [get_process_name_from_hwnd] returns the empty text
    and raises nothing. *)
Lemma get_process_name_from_hwnd_failure_empty σ hwnd :
  os_windows σ !! hwnd = None
  ∨ can_open σ PROCESS_QUERY_LIMITED_INFORMATION
      (owner_pid (os_windows σ) hwnd) = false
  ∨ (∃ p, os_processes σ !! owner_pid (os_windows σ) hwnd = Some p
          ∧ process_image p 260 = None) →
  ∃ σ', get_process_name_from_hwnd hwnd σ = (Ok "", σ').
Proof.
  intros Hfail. pose proof (get_process_name_from_hwnd_run σ hwnd) as Hrun.
  simpl in Hrun.
  destruct (can_open σ _ (owner_pid (os_windows σ) hwnd)) eqn:Hopen.
  - destruct Hrun as (name & ok & Hrun & Hname).
    destruct Hfail as [Hstale|[Hdenied|(p & Hp & Himg)]].
    + unfold owner_pid in Hopen. rewrite Hstale in Hopen.
      by rewrite can_open_pid_0 in Hopen.
    + done.
    + rewrite Hp in Hname. simpl in Hname. rewrite Himg in Hname.
      destruct Hname as [_ ->]. by eexists.
  - by eexists.
Qed.


(** C8: when the window exists, its process can be opened and the
    image path fits the buffer, [get_process_name_from_hwnd] returns
    the file name: the image path is [dir] followed by the result, the
    result holds no backslash, and [dir] is empty or ends with a
    backslash. *)
Theorem get_process_name_from_hwnd_file_name σ hwnd w p path :
  os_windows σ !! hwnd = Some w →
  can_open σ PROCESS_QUERY_LIMITED_INFORMATION (w_pid w) = true →
  os_processes σ !! w_pid w = Some p →
  p_image p = Some path →
  (String.length path < 260)%nat →
  nul_free path →
  ∃ name dir σ',
    get_process_name_from_hwnd hwnd σ = (Ok name, σ')
    ∧ path = (dir +:+ name)
    ∧ (backslash ∉ list_ascii_of_string name)
    ∧ (dir = "" ∨ ends_with dir backslash).
Proof.
  intros Hw Hopen Hp Himg Hlen Hnul.
  pose proof (get_process_name_from_hwnd_run σ hwnd) as Hrun.
  simpl in Hrun. unfold owner_pid in Hrun. rewrite Hw, Hopen, Hp in Hrun.
  simpl in Hrun. unfold process_image in Hrun. rewrite Himg in Hrun.
  simpl in Hrun. rewrite decide_True in Hrun by lia.
  destruct Hrun as (name & ok & Hrun & _ & Hlast).
  rewrite c_string_nul_free in Hlast by done.
  destruct (split_last path backslash)
    as (name' & dir & Hlast' & Hpath & Hname & Hdir).
  rewrite Hlast in Hlast'. injection Hlast' as <-.
  exists name, dir. eexists. split; [exact Hrun|]. split; [done|].
  split; [done|]. destruct Hdir as [[-> _]|[Hends _]]; [by left|by right].
Qed.

(** C10: the image path is asked for with a buffer of 260 characters
    and a size of 260.  For a process whose image path is longer than
    259 characters and that can be opened, that query is issued, on the
    handle just opened, and fails, and the handle is closed; where the
    process cannot be opened no query is issued.  In both cases the
    function returns the empty text and raises nothing. *)
Theorem get_process_name_from_hwnd_long_path σ hwnd w p path :
  os_windows σ !! hwnd = Some w →
  os_processes σ !! w_pid w = Some p →
  p_image p = Some path →
  (259 < String.length path)%nat →
  let h := handle_of_slot (length (os_handles σ)) in
  ∃ σ',
    get_process_name_from_hwnd hwnd σ = (Ok "", σ')
    ∧ os_trace σ' =
        os_trace σ ++
          if can_open σ PROCESS_QUERY_LIMITED_INFORMATION (w_pid w)
          then [EvGetWindowThreadProcessId hwnd (w_thread w);
                EvOpenProcess PROCESS_QUERY_LIMITED_INFORMATION (w_pid w) h;
                EvQueryFullProcessImageNameW h 260 260 0;
                EvCloseHandle h 1]
          else [EvGetWindowThreadProcessId hwnd (w_thread w);
                EvOpenProcess PROCESS_QUERY_LIMITED_INFORMATION (w_pid w) 0].
Proof.
  intros Hw Hp Himg Hlen h.
  pose proof (get_process_name_from_hwnd_run σ hwnd) as Hrun.
  simpl in Hrun. unfold owner_pid, owner_thread in Hrun. rewrite Hw in Hrun.
  destruct (can_open σ _ (w_pid w)).
  - rewrite Hp in Hrun. simpl in Hrun. unfold process_image in Hrun.
    rewrite Himg in Hrun. simpl in Hrun. rewrite decide_False in Hrun by lia.
    destruct Hrun as (name & ok & Hrun & -> & ->).
    eexists. split; [exact Hrun|]. reflexivity.
  - eexists. split; [exact Hrun|]. reflexivity.
Qed.

(** * Opacity *)

Lemma land_lor_absorb x y : Z.land (Z.lor x y) y = y.
Proof.
  apply Z.bits_inj'. intros i _. rewrite Z.land_spec, Z.lor_spec.
  destruct (Z.testbit x i), (Z.testbit y i); reflexivity.
Qed.


Lemma set_window_opacity_run σ hwnd opacity w :
  os_windows σ !! hwnd = Some w →
  let exstyle := Z.lor (w_exstyle w) WS_EX_LAYERED in
  let w' := with_alpha (with_exstyle w exstyle) (opacity mod 256) in
  set_window_opacity hwnd opacity σ =
    (Ok tt,
     OS (<[hwnd := w']> (os_windows σ)) (os_processes σ) (os_handles σ)
        (os_trace σ ++
           [EvGetWindowLongPtr hwnd GWL_EXSTYLE (w_exstyle w);
            EvSetWindowLongPtr hwnd GWL_EXSTYLE exstyle (w_exstyle w);
            EvSetLayeredWindowAttributes hwnd 0 opacity LWA_ALPHA 1])).
Proof.
  intros Hw exstyle w'. unfold set_window_opacity, GetWindowLongPtrA.
  py_run GetWindowLongPtr_EXSTYLE_run.
  unfold reported_exstyle. rewrite Hw. fold exstyle.
  unfold SetWindowLongPtrA at 1. rewrite !run_bind. simpl. rewrite Hw. simpl.
  rewrite !run_bind. simpl.
  unfold SetLayeredWindowAttributes. rewrite !run_bind. simpl.
  rewrite lookup_insert_eq. simpl. unfold exstyle at 1.
  rewrite land_lor_absorb.
  assert (truthy WS_EX_LAYERED = true) as -> by reflexivity.
  rewrite !run_bind. simpl. rewrite insert_insert_eq.
  by rewrite <- !(assoc_L (++)).
Qed.


(** * The scenarios, run *)

Example desk_ABCD_all_windows :
  (get_all_windows desk_ABCD).1
  = Ok (<[1 := "Notepad"]> (<[3 := "Dialog"]> (<[4 := "Deep"]> ∅))).
Proof. vm_compute. reflexivity. Qed.

Example desk_ABCD_user_windows :
  (get_all_user_windows desk_ABCD).1
  = Ok (<[1 := "Notepad"]> (<[4 := "Deep"]> ∅)).
Proof. vm_compute. reflexivity. Qed.

Example desk_ABCD_process_names :
  (get_process_name_from_hwnd 1 desk_ABCD).1 = Ok "notepad.exe"
  ∧ (get_process_name_from_hwnd 4 desk_ABCD).1 = Ok ""
  ∧ (get_process_name_from_hwnd 99 desk_ABCD).1 = Ok "".
Proof. vm_compute. done. Qed.

(** The inclusion need not be strict: with windows A and B only, both
    enumerations return the same dictionary. *)
Lemma get_all_user_windows_not_strict_subset :
  (get_all_user_windows desk_AB).1 = Ok {[1 := "Notepad"]}
  ∧ (get_all_windows desk_AB).1 = Ok {[1 := "Notepad"]}
  ∧ ¬ (({[1 := "Notepad"]} : gmap Z string) ⊂ {[1 := "Notepad"]}).
Proof.
  split; [vm_compute; reflexivity|]. split; [vm_compute; reflexivity|].
  intros [_ Hstrict]. by apply Hstrict.
Qed.

Lemma get_all_user_windows_user_facing_witness :
  os_windows desk_AB !! 1 = Some window_A
  ∧ nul_free (w_text window_A)
  ∧ ∃ windows σ',
      get_all_user_windows desk_AB = (Ok windows, σ')
      ∧ (windows !! 1 = Some (w_text window_A) ↔ user_facing window_A)
      ∧ (windows !! 1 = None ↔ ¬ user_facing window_A)
      ∧ (∀ l_param s σ0, ∃ s' σ0',
           user_windows_proc_callback 1 l_param s σ0 = (Ok (true, s'), σ0')).
Proof.
  split; [reflexivity|]. split; [by_evaluation|].
  apply (get_all_user_windows_user_facing desk_AB 1 window_A);
    [reflexivity|by_evaluation].
Defined.

Lemma get_all_windows_visible_titled_witness :
  nul_free_titles (os_windows desk_AB)
  ∧ ∃ windows σ',
      get_all_windows desk_AB = (Ok windows, σ')
      ∧ (∀ hwnd w, os_windows desk_AB !! hwnd = Some w →
           (windows !! hwnd = Some (w_text w) ↔ visible_and_titled w)
           ∧ (windows !! hwnd = None ↔ ¬ visible_and_titled w))
      ∧ (∀ hwnd, os_windows desk_AB !! hwnd = None → windows !! hwnd = None)
      ∧ size windows
          = size (filter (λ kw, visible_and_titled kw.2) (os_windows desk_AB)).
Proof.
  split; [by_evaluation|].
  apply (get_all_windows_visible_titled desk_AB). by_evaluation.
Defined.

Lemma empty_title_absent_witness :
  os_windows desk_AB !! 2 = Some window_B
  ∧ w_text window_B = ""
  ∧ ∃ all user σ1 σ2,
      get_all_windows desk_AB = (Ok all, σ1)
      ∧ get_all_user_windows desk_AB = (Ok user, σ2)
      ∧ all !! 2 = None
      ∧ user !! 2 = None.
Proof.
  split; [reflexivity|]. split; [reflexivity|].
  apply (empty_title_absent desk_AB 2 window_B); reflexivity.
Defined.

Lemma get_process_name_from_hwnd_file_name_witness :
  os_windows desk_ABCD !! 1 = Some window_A
  ∧ can_open desk_ABCD PROCESS_QUERY_LIMITED_INFORMATION (w_pid window_A) = true
  ∧ os_processes desk_ABCD !! w_pid window_A
      = Some (Process true (Some notepad_exe))
  ∧ (String.length notepad_exe < 260)%nat
  ∧ nul_free notepad_exe
  ∧ ∃ name dir σ',
      get_process_name_from_hwnd 1 desk_ABCD = (Ok name, σ')
      ∧ notepad_exe = (dir +:+ name)
      ∧ (backslash ∉ list_ascii_of_string name)
      ∧ (dir = "" ∨ ends_with dir backslash).
Proof.
  split; [reflexivity|]. split; [reflexivity|]. split; [reflexivity|].
  split; [vm_compute; lia|]. split; [by_evaluation|].
  apply (get_process_name_from_hwnd_file_name desk_ABCD 1 window_A
           (Process true (Some notepad_exe)) notepad_exe);
    [reflexivity|reflexivity|reflexivity|reflexivity|vm_compute; lia
    |by_evaluation].
Defined.


(** * Further properties *)

(** ** Titles *)

Lemma c_string_cons c s :
  c_string (String c s) = if decide (c = NUL) then "" else String c (c_string s).
Proof. reflexivity. Qed.

Lemma c_string_starts s : starts_with s (c_string s).
Proof.
  induction s as [|c s [rest IH]].
  - by exists "".
  - rewrite c_string_cons. destruct (decide (c = NUL)).
    + by exists (String c s).
    + exists rest. change (String c s = String c (c_string s +:+ rest)).
      by f_equal.
Qed.

Lemma c_string_is_nul_free s : nul_free (c_string s).
Proof.
  unfold nul_free. induction s as [|c s IH].
  - apply not_elem_of_nil.
  - rewrite c_string_cons. destruct (decide (c = NUL)).
    + apply not_elem_of_nil.
    + simpl. apply not_elem_of_cons. split; [congruence|done].
Qed.

(** X1: for a window of the registry [get_title_from_hwnd] returns the
    whole window text, whatever its length, and changes nothing but
    the call log. *)
Theorem get_title_from_hwnd_full_text σ hwnd w :
  os_windows σ !! hwnd = Some w →
  nul_free (w_text w) →
  ∃ σ',
    get_title_from_hwnd hwnd σ = (Ok (w_text w), σ')
    ∧ os_windows σ' = os_windows σ
    ∧ os_processes σ' = os_processes σ
    ∧ os_handles σ' = os_handles σ.
Proof.
  intros Hw Hnul. rewrite get_title_from_hwnd_run. unfold reported_title.
  rewrite Hw, c_string_nul_free by done.
  eexists. split; [reflexivity|done].
Qed.

(** ** What the dictionaries hold *)

(** X2: every entry of the result of [get_all_windows] belongs to a visible
    window of the registry; its title is not empty, holds no NUL and is
    the beginning of the window text. *)
Theorem get_all_windows_entries σ :
  ∃ windows σ',
    get_all_windows σ = (Ok windows, σ')
    ∧ ∀ hwnd title, windows !! hwnd = Some title →
        title ≠ ""
        ∧ nul_free title
        ∧ ∃ w, os_windows σ !! hwnd = Some w
               ∧ w_visible w = true
               ∧ starts_with (w_text w) title.
Proof.
  destruct (get_all_windows_run σ) as [evs Hrun].
  eexists _, _. split; [exact Hrun|]. intros hwnd title.
  rewrite all_windows_of_lookup.
  destruct (os_windows σ !! hwnd) as [w|]; [|done].
  destruct (w_visible w) eqn:Hv; [|done]. simpl.
  destruct (str_truthy (c_string (w_text w))) eqn:Ht; [|done].
  intros [= <-]. split; [by apply str_truthy_true|].
  split; [apply c_string_is_nul_free|].
  exists w. split; [done|]. split; [done|]. apply c_string_starts.
Qed.

(** X3: every entry of the result of [get_all_user_windows] belongs to a
    visible window of the registry without tool-window bit and without
    owner; its title is not empty, holds no NUL and is the beginning of
    the window text. *)
Theorem get_all_user_windows_entries σ :
  ∃ windows σ',
    get_all_user_windows σ = (Ok windows, σ')
    ∧ ∀ hwnd title, windows !! hwnd = Some title →
        title ≠ ""
        ∧ nul_free title
        ∧ ∃ w, os_windows σ !! hwnd = Some w
               ∧ w_visible w = true
               ∧ Z.land (w_exstyle w) WS_EX_TOOLWINDOW = 0
               ∧ w_owner w = 0
               ∧ starts_with (w_text w) title.
Proof.
  destruct (get_all_user_windows_run σ) as [evs Hrun].
  eexists _, _. split; [exact Hrun|]. intros hwnd title.
  rewrite user_windows_of_lookup.
  destruct (os_windows σ !! hwnd) as [w|]; [|done].
  destruct (w_visible w) eqn:Hv; [|done]. simpl.
  destruct (truthy (Z.land _ _)) eqn:Hs; [done|]. simpl.
  destruct (truthy (w_owner w)) eqn:Ho; [done|]. simpl.
  destruct (str_truthy (c_string (w_text w))) eqn:Ht; [|done].
  intros [= <-]. split; [by apply str_truthy_true|].
  split; [apply c_string_is_nul_free|].
  exists w. apply truthy_false in Hs, Ho.
  repeat (split; [done|]). apply c_string_starts.
Qed.

(** X4: a window of the registry is listed by [get_all_windows] and left
    out by [get_all_user_windows] exactly when it is visible and
    titled, and is a tool window or has an owner. *)
Theorem listed_but_not_user_facing σ hwnd w :
  os_windows σ !! hwnd = Some w →
  nul_free (w_text w) →
  ∃ all user σ1 σ2,
    get_all_windows σ = (Ok all, σ1)
    ∧ get_all_user_windows σ = (Ok user, σ2)
    ∧ (all !! hwnd = Some (w_text w) ∧ user !! hwnd = None
       ↔ visible_and_titled w
         ∧ (Z.land (w_exstyle w) WS_EX_TOOLWINDOW ≠ 0 ∨ w_owner w ≠ 0)).
Proof.
  intros Hw Hnul.
  destruct (get_all_windows_run σ) as [evs1 Hrun1].
  destruct (get_all_user_windows_run σ) as [evs2 Hrun2].
  eexists _, _, _, _. split; [exact Hrun1|]. split; [exact Hrun2|].
  rewrite (all_windows_of_lookup_nul_free _ hwnd w) by done.
  rewrite (user_windows_of_lookup_nul_free _ hwnd w) by done.
  unfold user_facing, visible_and_titled.
  destruct (decide (w_visible w = true ∧ w_text w ≠ "")) as [[Hv Ht]|Hn];
    destruct (decide (_ ∧ _ ∧ _ ∧ _)) as [(? & Hs & Ho & ?)|Hu];
    split; try (intros [? ?]; done).
  - intros [_ [?|?]]; done.
  - intros _. split; [done|].
    destruct (decide (Z.land (w_exstyle w) WS_EX_TOOLWINDOW = 0)); [|by left].
    destruct (decide (w_owner w = 0)); [|by right].
    by destruct Hu.
Qed.

(** X5: the titles in the result of either enumeration are the ones that
    [get_title_from_hwnd] returns for the same identifiers afterwards. *)
Theorem enumerated_titles_agree σ :
  ∃ all user σ1 σ2,
    get_all_windows σ = (Ok all, σ1)
    ∧ get_all_user_windows σ = (Ok user, σ2)
    ∧ (∀ hwnd title, all !! hwnd = Some title →
         (get_title_from_hwnd hwnd σ1).1 = Ok title)
    ∧ (∀ hwnd title, user !! hwnd = Some title →
         (get_title_from_hwnd hwnd σ2).1 = Ok title).
Proof.
  destruct (get_all_windows_run σ) as [evs1 Hrun1].
  destruct (get_all_user_windows_run σ) as [evs2 Hrun2].
  eexists _, _, _, _. split; [exact Hrun1|]. split; [exact Hrun2|].
  split; intros hwnd title;
    [rewrite all_windows_of_lookup|rewrite user_windows_of_lookup];
    rewrite get_title_from_hwnd_run; unfold reported_title; simpl;
    destruct (os_windows σ !! hwnd) as [w|]; try done;
    destruct (_ && _); try done; by intros [= <-].
Qed.

(** ** The walks only read *)

Lemma reported_length_nonneg ws hwnd : 0 ≤ reported_length ws hwnd.
Proof. unfold reported_length. destruct (ws !! hwnd); lia. Qed.

Lemma title_events_read ws hwnd :
  let n := reported_length ws hwnd in
  Forall window_read
    [EvGetWindowTextLengthW hwnd n;
     EvGetWindowTextW hwnd (Z.to_nat (n + 1)) (n + 1) n].
Proof.
  intros n. pose proof (reported_length_nonneg ws hwnd).
  repeat constructor. simpl. fold n. lia.
Qed.

Lemma all_windows_proc_callback_logging :
  steady_logging window_read all_windows_proc_callback all_windows_step.
Proof.
  intros hwnd l_param windows σ.
  unfold all_windows_proc_callback, all_windows_step.
  py_run IsWindowVisible_run.
  destruct (truthy (reported_visible (os_windows σ) hwnd)); simpl.
  - py_run get_title_from_hwnd_run. simpl.
    rewrite add_trace_add_trace.
    destruct (str_truthy _); (eexists; split; [reflexivity|]);
      repeat (apply Forall_app; split);
      first [apply title_events_read|by repeat constructor].
  - eexists; split; [reflexivity|]. by repeat constructor.
Qed.

Lemma user_windows_proc_callback_logging :
  steady_logging window_read user_windows_proc_callback user_windows_step.
Proof.
  intros hwnd l_param windows σ.
  unfold user_windows_proc_callback, user_windows_step, GetWindowLongPtrW.
  py_run IsWindowVisible_run.
  destruct (truthy (reported_visible (os_windows σ) hwnd)); simpl;
    [|eexists; split; [reflexivity|by repeat constructor]].
  py_run GetWindowLongPtr_EXSTYLE_run. simpl.
  destruct (truthy (Z.land _ _)); simpl;
    [rewrite add_trace_add_trace; eexists;
     split; [reflexivity|by repeat constructor]|].
  py_run GetWindow_OWNER_run. simpl.
  destruct (truthy (reported_owner _ _)); simpl;
    [rewrite !add_trace_add_trace; eexists;
     split; [reflexivity|by repeat constructor]|].
  py_run get_title_from_hwnd_run. simpl.
  rewrite !add_trace_add_trace.
  destruct (str_truthy _); (eexists; split; [reflexivity|]);
    repeat (apply Forall_app; split);
    first [apply title_events_read|by repeat constructor].
Qed.

Lemma enum_walk_steady_logging {S} P (cb : Z → Z → S → py (bool * S)) step :
  steady_logging P cb step →
  ∀ hwnds l_param s σ, ∃ evs,
    enum_walk cb l_param hwnds s σ =
      (Ok (1, foldl (step (os_windows σ)) s hwnds), add_trace σ evs)
    ∧ Forall P evs.
Proof.
  intros Hcb hwnds l_param. induction hwnds as [|hwnd hwnds IH]; intros s σ.
  - exists []. by rewrite add_trace_nil.
  - destruct (Hcb hwnd l_param s σ) as (evs1 & Hrun & Hevs1). simpl.
    py_run Hrun. simpl.
    destruct (IH (step (os_windows σ) s hwnd) (add_trace σ evs1))
      as (evs2 & -> & Hevs2).
    rewrite add_trace_add_trace. eexists; split; [reflexivity|].
    by apply Forall_app.
Qed.

Lemma EnumWindows_steady_logging {S} P (cb : Z → Z → S → py (bool * S)) step :
  steady_logging P cb step →
  ∀ l_param s σ, ∃ evs,
    EnumWindows cb l_param s σ =
      (Ok (1, foldl (step (os_windows σ)) s (map_to_list (os_windows σ)).*1),
       add_trace σ (EvEnumWindows l_param :: evs))
    ∧ Forall P evs.
Proof.
  intros Hcb l_param s σ. unfold EnumWindows.
  rewrite run_bind; simpl. rewrite run_bind; simpl.
  destruct (enum_walk_steady_logging P cb step Hcb
              (map_to_list (os_windows σ)).*1
              l_param s (add_trace σ [EvEnumWindows l_param]))
    as (evs & Hrun & Hevs).
  simpl in Hrun. unfold add_trace at 1 in Hrun. rewrite Hrun.
  rewrite add_trace_add_trace. by exists evs.
Qed.

(** X6: both enumerations leave the registry, the process table and the
    handle table as they are; what they add to the call log is one
    [EnumWindows] followed by reads of window state only, and every
    fill asks for exactly the capacity of its buffer. *)
Theorem enumerations_only_read σ :
  ∃ all user σ1 σ2 evs1 evs2,
    get_all_windows σ = (Ok all, σ1)
    ∧ get_all_user_windows σ = (Ok user, σ2)
    ∧ os_windows σ1 = os_windows σ ∧ os_windows σ2 = os_windows σ
    ∧ os_processes σ1 = os_processes σ ∧ os_processes σ2 = os_processes σ
    ∧ os_handles σ1 = os_handles σ ∧ os_handles σ2 = os_handles σ
    ∧ os_trace σ1 = os_trace σ ++ EvEnumWindows 0 :: evs1
    ∧ os_trace σ2 = os_trace σ ++ EvEnumWindows 0 :: evs2
    ∧ Forall window_read evs1
    ∧ Forall window_read evs2.
Proof.
  destruct (EnumWindows_steady_logging _ _ _
              all_windows_proc_callback_logging 0 ∅ σ)
    as (evs1 & Hrun1 & Hevs1).
  destruct (EnumWindows_steady_logging _ _ _
              user_windows_proc_callback_logging 0 ∅ σ)
    as (evs2 & Hrun2 & Hevs2).
  eexists _, _, _, _, evs1, evs2.
  split; [unfold get_all_windows; py_run Hrun1; reflexivity|].
  split; [unfold get_all_user_windows; py_run Hrun2; reflexivity|].
  done.
Qed.

(** X7: calls do not disturb one another: after [get_all_windows] and
    [get_all_user_windows] have run, each of them still returns what
    it returns on the initial state. *)
Theorem enumerations_repeatable σ :
  ∃ all user σ1 σ2 σ3 σ4,
    get_all_windows σ = (Ok all, σ1)
    ∧ get_all_user_windows σ1 = (Ok user, σ2)
    ∧ get_all_windows σ2 = (Ok all, σ3)
    ∧ get_all_user_windows σ3 = (Ok user, σ4)
    ∧ (get_all_user_windows σ).1 = Ok user.
Proof.
  destruct (get_all_windows_run σ) as [evs1 Hrun1].
  destruct (get_all_user_windows_run (add_trace σ evs1)) as [evs2 Hrun2].
  destruct (get_all_windows_run (add_trace (add_trace σ evs1) evs2))
    as [evs3 Hrun3].
  destruct (get_all_user_windows_run
              (add_trace (add_trace (add_trace σ evs1) evs2) evs3))
    as [evs4 Hrun4].
  destruct (get_all_user_windows_run σ) as [evs5 Hrun5].
  eexists _, _, _, _, _, _.
  split; [exact Hrun1|]. split; [exact Hrun2|]. split; [exact Hrun3|].
  split; [exact Hrun4|]. by rewrite Hrun5.
Qed.

(** X8: the dictionaries do not depend on the order in which the windows
    are handed to the callback, nor on a window being handed over more
    than once: a walk over any list that holds exactly the identifiers
    of the registry builds what the enumeration returns. *)
Theorem walk_order_irrelevant σ hwnds l_param :
  (list_to_set hwnds : gset Z) = dom (os_windows σ) →
  ∃ all user,
    (get_all_windows σ).1 = Ok all
    ∧ (get_all_user_windows σ).1 = Ok user
    ∧ (enum_walk all_windows_proc_callback l_param hwnds ∅ σ).1 = Ok (1, all)
    ∧ (enum_walk user_windows_proc_callback l_param hwnds ∅ σ).1
      = Ok (1, user).
Proof.
  intros Hdom.
  assert (Hin : ∀ hwnd w, os_windows σ !! hwnd = Some w → hwnd ∈ hwnds).
  { intros hwnd w Hw. apply (elem_of_list_to_set (C := gset Z)).
    rewrite Hdom. apply elem_of_dom. eauto. }
  destruct (get_all_windows_run σ) as [evs1 Hrun1].
  destruct (get_all_user_windows_run σ) as [evs2 Hrun2].
  destruct (enum_walk_steady _ _ all_windows_proc_callback_steady
              hwnds l_param ∅ σ) as [evs3 Hrun3].
  destruct (enum_walk_steady _ _ user_windows_proc_callback_steady
              hwnds l_param ∅ σ) as [evs4 Hrun4].
  eexists _, _. rewrite Hrun1, Hrun2, Hrun3, Hrun4. simpl.
  split; [done|]. split; [done|]. split; do 2 f_equal; apply map_eq; intros h.
  - rewrite all_windows_of_lookup. unfold all_windows_step.
    rewrite (foldl_keep_lookup
               (λ k, truthy (reported_visible (os_windows σ) k)
                     && str_truthy (reported_title (os_windows σ) k))
               (reported_title (os_windows σ))).
    rewrite lookup_empty. unfold reported_visible, reported_title.
    destruct (os_windows σ !! h) as [w|] eqn:Hw.
    + rewrite bool_decide_eq_true_2 by eauto. by destruct (w_visible w).
    + by rewrite andb_false_r.
  - rewrite user_windows_of_lookup. unfold user_windows_step.
    rewrite (foldl_keep_lookup
               (λ k, truthy (reported_visible (os_windows σ) k)
                     && negb (truthy (Z.land (reported_exstyle (os_windows σ) k)
                                             WS_EX_TOOLWINDOW))
                     && negb (truthy (reported_owner (os_windows σ) k))
                     && str_truthy (reported_title (os_windows σ) k))
               (reported_title (os_windows σ))).
    rewrite lookup_empty.
    unfold reported_visible, reported_exstyle, reported_owner, reported_title.
    destruct (os_windows σ !! h) as [w|] eqn:Hw.
    + rewrite bool_decide_eq_true_2 by eauto. by destruct (w_visible w).
    + by rewrite andb_false_r.
Qed.

(** ** More on opacity *)

Lemma set_window_opacity_run_stale σ hwnd opacity :
  os_windows σ !! hwnd = None →
  set_window_opacity hwnd opacity σ =
    (Ok tt,
     add_trace σ
       [EvGetWindowLongPtr hwnd GWL_EXSTYLE 0;
        EvSetWindowLongPtr hwnd GWL_EXSTYLE WS_EX_LAYERED 0;
        EvSetLayeredWindowAttributes hwnd 0 opacity LWA_ALPHA 0]).
Proof.
  intros Hw. unfold set_window_opacity, GetWindowLongPtrA.
  py_run GetWindowLongPtr_EXSTYLE_run.
  unfold reported_exstyle. rewrite Hw.
  unfold SetWindowLongPtrA at 1. rewrite !run_bind. simpl. rewrite Hw.
  rewrite !run_bind. simpl.
  unfold SetLayeredWindowAttributes. rewrite !run_bind. simpl. rewrite Hw.
  rewrite !run_bind. simpl. unfold add_trace. simpl.
  by rewrite <- !(assoc_L (++)).
Qed.

Lemma set_window_opacity_registry σ hwnd opacity :
  ∃ σ',
    set_window_opacity hwnd opacity σ = (Ok tt, σ')
    ∧ os_windows σ' = with_opacity (os_windows σ) hwnd opacity
    ∧ os_processes σ' = os_processes σ
    ∧ os_handles σ' = os_handles σ.
Proof.
  unfold with_opacity. destruct (os_windows σ !! hwnd) as [w|] eqn:Hw.
  - eexists. split; [by apply set_window_opacity_run|done].
  - eexists. split; [by apply set_window_opacity_run_stale|done].
Qed.

(** On C ints: on an identifier that names no window [set_window_opacity] raises
    nothing and changes nothing: each of its three native calls answers
    0, and the registry, the process table and the handle table are as
    before. *)
Lemma set_window_opacity_stale σ hwnd opacity :
  os_windows σ !! hwnd = None →
  ∃ σ',
    set_window_opacity hwnd opacity σ = (Ok tt, σ')
    ∧ os_windows σ' = os_windows σ
    ∧ os_processes σ' = os_processes σ
    ∧ os_handles σ' = os_handles σ
    ∧ os_trace σ' =
        os_trace σ ++
          [EvGetWindowLongPtr hwnd GWL_EXSTYLE 0;
           EvSetWindowLongPtr hwnd GWL_EXSTYLE WS_EX_LAYERED 0;
           EvSetLayeredWindowAttributes hwnd 0 opacity LWA_ALPHA 0].
Proof.
  intros Hw. eexists. split; [by apply set_window_opacity_run_stale|done].
Qed.

(** On C ints: on a window of the registry [set_window_opacity] makes the window
    layered first, so that the layered-attributes call succeeds
    whatever the style was before; the alpha of the window becomes the
    low byte of [opacity], and its visibility, owner, text, thread and
    process stay as they were, as do the process and handle tables. *)
Lemma set_window_opacity_sets_alpha σ hwnd opacity w :
  os_windows σ !! hwnd = Some w →
  ∃ σ' w',
    set_window_opacity hwnd opacity σ = (Ok tt, σ')
    ∧ os_windows σ' !! hwnd = Some w'
    ∧ w_alpha w' = Some (opacity mod 256)
    ∧ w_visible w' = w_visible w
    ∧ w_owner w' = w_owner w
    ∧ w_text w' = w_text w
    ∧ w_thread w' = w_thread w
    ∧ w_pid w' = w_pid w
    ∧ os_processes σ' = os_processes σ
    ∧ os_handles σ' = os_handles σ
    ∧ os_trace σ' =
        os_trace σ ++
          [EvGetWindowLongPtr hwnd GWL_EXSTYLE (w_exstyle w);
           EvSetWindowLongPtr hwnd GWL_EXSTYLE
             (Z.lor (w_exstyle w) WS_EX_LAYERED) (w_exstyle w);
           EvSetLayeredWindowAttributes hwnd 0 opacity LWA_ALPHA 1].
Proof.
  intros Hw. eexists.
  exists (with_alpha (with_exstyle w (Z.lor (w_exstyle w) WS_EX_LAYERED))
                     (opacity mod 256)).
  split; [by apply set_window_opacity_run|].
  cbn [os_windows os_processes os_handles os_trace].
  split; [by rewrite lookup_insert_eq|done].
Qed.

Lemma with_opacity_with_opacity ws hwnd a b :
  with_opacity (with_opacity ws hwnd a) hwnd b = with_opacity ws hwnd b.
Proof.
  unfold with_opacity. destruct (ws !! hwnd) as [w|] eqn:Hw.
  - rewrite lookup_insert_eq. cbn [w_exstyle with_alpha with_exstyle].
    rewrite insert_insert_eq, <- Z.lor_assoc, Z.lor_diag. done.
  - by rewrite Hw.
Qed.






(** ** More on process names *)

Lemma list_ascii_of_string_append s t :
  list_ascii_of_string (s +:+ t)
  = list_ascii_of_string s ++ list_ascii_of_string t.
Proof. induction s as [|c s IH]; simpl; [done|]. by rewrite IH. Qed.

Lemma string_length_append s t :
  String.length (s +:+ t) = (String.length s + String.length t)%nat.
Proof. induction s as [|c s IH]; simpl; [done|]. by rewrite IH. Qed.

Lemma c_string_length s : (String.length (c_string s) ≤ String.length s)%nat.
Proof.
  destruct (c_string_starts s) as [rest Hs].
  rewrite Hs at 2. rewrite string_length_append. lia.
Qed.

Lemma process_image_length p size path :
  process_image p size = Some path → Z.of_nat (String.length path) < size.
Proof.
  unfold process_image. destruct (p_image p) as [path'|]; [|done]. simpl.
  case_decide; [|done]. by intros [= <-].
Qed.

(** On C ints: whatever the identifier, [get_process_name_from_hwnd] returns a
    text without backslash and without NUL, of at most 259
    characters. *)
Lemma get_process_name_from_hwnd_name_shape σ hwnd :
  ∃ name σ',
    get_process_name_from_hwnd hwnd σ = (Ok name, σ')
    ∧ (backslash ∉ list_ascii_of_string name)
    ∧ nul_free name
    ∧ (String.length name ≤ 259)%nat.
Proof.
  pose proof (get_process_name_from_hwnd_run σ hwnd) as Hrun.
  simpl in Hrun.
  destruct (can_open σ _ (owner_pid (os_windows σ) hwnd)).
  - destruct Hrun as (name & ok & Hrun & Hname).
    eexists _, _. split; [exact Hrun|].
    destruct (os_processes σ !! owner_pid (os_windows σ) hwnd) as [p|];
      simpl in Hname.
    + destruct (process_image p 260) as [path|] eqn:Himg.
      * destruct Hname as [_ Hlast].
        destruct (split_last (c_string path) backslash)
          as (name' & dir & Hlast' & Hpath & Hname' & _).
        rewrite Hlast in Hlast'. injection Hlast' as <-.
        apply process_image_length in Himg.
        pose proof (c_string_length path) as Hlen.
        pose proof (c_string_is_nul_free path) as Hnul.
        unfold nul_free in Hnul. rewrite Hpath in Hlen, Hnul.
        rewrite string_length_append in Hlen.
        rewrite list_ascii_of_string_append in Hnul.
        split; [done|]. split; [|lia].
        unfold nul_free. intros Hin. apply Hnul, elem_of_app. by right.
      * destruct Hname as [_ ->]. split; [apply not_elem_of_nil|].
        split; [apply not_elem_of_nil|simpl; lia].
    + destruct Hname as [_ ->]. split; [apply not_elem_of_nil|].
      split; [apply not_elem_of_nil|simpl; lia].
  - eexists _, _. split; [exact Hrun|]. split; [apply not_elem_of_nil|].
    split; [apply not_elem_of_nil|simpl; lia].
Qed.

Lemma can_open_processes σ1 σ2 access pid :
  os_processes σ1 = os_processes σ2 →
  can_open σ1 access pid = can_open σ2 access pid.
Proof. intros H. unfold can_open. by rewrite H. Qed.

(** On C ints: the name depends on the process table and on the process of the
    window only: windows of one process get one name, and so does a
    repeated call, whatever has happened to the handle table and the
    call log in between. *)
Lemma get_process_name_from_hwnd_by_process σ1 σ2 hwnd1 hwnd2 :
  os_processes σ1 = os_processes σ2 →
  owner_pid (os_windows σ1) hwnd1 = owner_pid (os_windows σ2) hwnd2 →
  (get_process_name_from_hwnd hwnd1 σ1).1
  = (get_process_name_from_hwnd hwnd2 σ2).1.
Proof.
  intros Hps Hpid.
  pose proof (get_process_name_from_hwnd_run σ1 hwnd1) as Hrun1.
  pose proof (get_process_name_from_hwnd_run σ2 hwnd2) as Hrun2.
  simpl in Hrun1, Hrun2.
  rewrite (can_open_processes σ1 σ2), Hpid, Hps in Hrun1 by done.
  destruct (can_open σ2 _ (owner_pid (os_windows σ2) hwnd2)).
  - destruct Hrun1 as (name1 & ok1 & -> & Hname1).
    destruct Hrun2 as (name2 & ok2 & -> & Hname2). simpl. f_equal.
    destruct (os_processes σ2 !! owner_pid (os_windows σ2) hwnd2 ≫= _)
      as [path|].
    + destruct Hname1 as [_ Hlast1], Hname2 as [_ Hlast2]. congruence.
    + destruct Hname1 as [_ ->], Hname2 as [_ ->]. done.
  - by rewrite Hrun1, Hrun2.
Qed.



(** * The further properties on the scenarios *)

Lemma get_title_from_hwnd_full_text_witness :
  os_windows desk_AB !! 1 = Some window_A
  ∧ nul_free (w_text window_A)
  ∧ ∃ σ',
      get_title_from_hwnd 1 desk_AB = (Ok (w_text window_A), σ')
      ∧ os_windows σ' = os_windows desk_AB
      ∧ os_processes σ' = os_processes desk_AB
      ∧ os_handles σ' = os_handles desk_AB.
Proof.
  split; [reflexivity|]. split; [by_evaluation|].
  apply (get_title_from_hwnd_full_text desk_AB 1 window_A);
    [reflexivity|by_evaluation].
Defined.

Lemma listed_but_not_user_facing_witness :
  os_windows desk_ABCD !! 3 = Some window_C
  ∧ nul_free (w_text window_C)
  ∧ ∃ all user σ1 σ2,
      get_all_windows desk_ABCD = (Ok all, σ1)
      ∧ get_all_user_windows desk_ABCD = (Ok user, σ2)
      ∧ (all !! 3 = Some (w_text window_C) ∧ user !! 3 = None
         ↔ visible_and_titled window_C
           ∧ (Z.land (w_exstyle window_C) WS_EX_TOOLWINDOW ≠ 0
              ∨ w_owner window_C ≠ 0)).
Proof.
  split; [reflexivity|]. split; [by_evaluation|].
  apply (listed_but_not_user_facing desk_ABCD 3 window_C);
    [reflexivity|by_evaluation].
Defined.

Lemma walk_order_irrelevant_witness :
  (list_to_set [2; 1; 2] : gset Z) = dom (os_windows desk_AB)
  ∧ ∃ all user,
      (get_all_windows desk_AB).1 = Ok all
      ∧ (get_all_user_windows desk_AB).1 = Ok user
      ∧ (enum_walk all_windows_proc_callback 7 [2; 1; 2] ∅ desk_AB).1
        = Ok (1, all)
      ∧ (enum_walk user_windows_proc_callback 7 [2; 1; 2] ∅ desk_AB).1
        = Ok (1, user).
Proof.
  split; [by_evaluation|].
  apply (walk_order_irrelevant desk_AB [2; 1; 2] 7). by_evaluation.
Defined.


(** * The functions as Python calls them *)

(** ** The conversion of arguments *)

Lemma c_int_in_c_int v : in_c_int v → c_int v = v.
Proof.
  unfold in_c_int, c_int. intros Hv. rewrite Z.mod_small by lia. lia.
Qed.

Lemma in_c_int_accepts dm v : in_c_int v → ctypes_accepts dm v.
Proof. unfold in_c_int, ctypes_accepts. destruct dm; simpl; lia. Qed.

Lemma c_int_mod_256 v : c_int v mod 256 = v mod 256.
Proof.
  unfold c_int.
  rewrite Zminus_mod, Z.mod_mod_divide by (exists (2 ^ 24); reflexivity).
  change (2 ^ 31 mod 256) with 0. rewrite Z.sub_0_r, Z.mod_mod by lia.
  change (2 ^ 31) with (2 ^ 23 * 256). apply Z_mod_plus_full.
Qed.

Lemma c_int_range v : in_c_int (c_int v).
Proof.
  unfold in_c_int, c_int.
  pose proof (Z.mod_pos_bound (v + 2 ^ 31) (2 ^ 32)). lia.
Qed.

Lemma as_parameter_accepted dm v σ :
  ctypes_accepts dm v → as_parameter dm v σ = (Ok (c_int v), σ).
Proof. intros Hv. unfold as_parameter. by rewrite decide_True. Qed.

Lemma as_parameter_rejected dm v σ :
  ¬ ctypes_accepts dm v → as_parameter dm v σ = (Raise ArgumentError, σ).
Proof. intros Hv. unfold as_parameter. by rewrite decide_False. Qed.

(** Unfolds the sequence at the head of a run, converting accepted
    arguments on the way. *)
Ltac py_unfold :=
  rewrite !run_bind, ?as_parameter_accepted by done; cbn beta iota.

(** ** The two layers agree on accepted arguments *)

Lemma ctypes_get_title_from_hwnd_accepted dm hwnd σ :
  ctypes_accepts dm hwnd →
  Ctypes.get_title_from_hwnd dm hwnd σ = get_title_from_hwnd (c_int hwnd) σ.
Proof.
  intros Hh. unfold Ctypes.get_title_from_hwnd, get_title_from_hwnd.
  py_unfold.
  destruct (GetWindowTextLengthW (c_int hwnd) σ) as [[n|e] σ1]; [|done].
  py_unfold.
  destruct (create_unicode_buffer (n + 1) σ1) as [[buff|e] σ2]; [|done].
  py_unfold. done.
Qed.

Lemma ctypes_get_process_name_from_hwnd_accepted dm hwnd σ :
  ctypes_accepts dm hwnd →
  Ctypes.get_process_name_from_hwnd dm hwnd σ
  = get_process_name_from_hwnd (c_int hwnd) σ.
Proof.
  intros Hh.
  unfold Ctypes.get_process_name_from_hwnd, get_process_name_from_hwnd.
  py_unfold. done.
Qed.

Lemma ctypes_set_window_opacity_accepted dm hwnd opacity σ :
  ctypes_accepts dm hwnd →
  ctypes_accepts dm opacity →
  Ctypes.set_window_opacity dm hwnd opacity σ
  = set_window_opacity (c_int hwnd) (c_int opacity) σ.
Proof.
  intros Hh Ho. unfold Ctypes.set_window_opacity, set_window_opacity.
  py_unfold.
  destruct (GetWindowLongPtrA (c_int hwnd) GWL_EXSTYLE σ)
    as [[exstyle|e] σ1]; [|done].
  py_unfold.
  destruct (SetWindowLongPtrA (c_int hwnd) GWL_EXSTYLE _ σ1)
    as [[prev|e] σ2]; [|done].
  py_unfold. py_unfold. done.
Qed.

(** ** Arguments that are not accepted *)

Lemma ctypes_get_title_from_hwnd_rejected dm hwnd σ :
  ¬ ctypes_accepts dm hwnd →
  Ctypes.get_title_from_hwnd dm hwnd σ = (Raise ArgumentError, σ).
Proof.
  intros Hh. unfold Ctypes.get_title_from_hwnd.
  rewrite !run_bind. by rewrite as_parameter_rejected.
Qed.

Lemma ctypes_get_process_name_from_hwnd_rejected dm hwnd σ :
  ¬ ctypes_accepts dm hwnd →
  Ctypes.get_process_name_from_hwnd dm hwnd σ = (Raise ArgumentError, σ).
Proof.
  intros Hh. unfold Ctypes.get_process_name_from_hwnd.
  rewrite !run_bind. by rewrite as_parameter_rejected.
Qed.

Lemma ctypes_set_window_opacity_rejected dm hwnd opacity σ :
  ¬ ctypes_accepts dm hwnd →
  Ctypes.set_window_opacity dm hwnd opacity σ = (Raise ArgumentError, σ).
Proof.
  intros Hh. unfold Ctypes.set_window_opacity.
  rewrite !run_bind. by rewrite as_parameter_rejected.
Qed.

Lemma ctypes_set_window_opacity_overflow dm hwnd opacity σ :
  ctypes_accepts dm hwnd →
  ¬ ctypes_accepts dm opacity →
  let h := c_int hwnd in
  let exstyle := reported_exstyle (os_windows σ) h in
  Ctypes.set_window_opacity dm hwnd opacity σ =
    (Raise ArgumentError,
     OS (with_layered (os_windows σ) h) (os_processes σ) (os_handles σ)
        (os_trace σ ++
           [EvGetWindowLongPtr h GWL_EXSTYLE exstyle;
            EvSetWindowLongPtr h GWL_EXSTYLE
              (Z.lor exstyle WS_EX_LAYERED) exstyle])).
Proof.
  intros Hh Ho h exstyle. subst h exstyle.
  unfold Ctypes.set_window_opacity, GetWindowLongPtrA.
  py_unfold. rewrite GetWindowLongPtr_EXSTYLE_run.
  py_unfold. unfold SetWindowLongPtrA at 1. rewrite !run_bind. simpl.
  unfold with_layered, reported_exstyle.
  destruct (os_windows σ !! c_int hwnd) as [w|] eqn:Hw.
  - rewrite !run_bind. simpl.
    rewrite !run_bind, as_parameter_accepted by done. cbn beta iota.
    rewrite run_bind, as_parameter_rejected by done.
    by rewrite <- !(assoc_L (++)).
  - rewrite !run_bind. simpl.
    rewrite !run_bind, as_parameter_accepted by done. cbn beta iota.
    rewrite run_bind, as_parameter_rejected by done.
    unfold add_trace; simpl. by rewrite <- !(assoc_L (++)).
Qed.

(** ** Titles and process names *)

(** C5, as amended: for an identifier that [ctypes] accepts and whose
    C int names no window, or a window with no title,
    [Ctypes.get_title_from_hwnd] returns the empty text and raises
    nothing; it asks for the length (0 here), creates a buffer of that
    length plus one, and has it filled with that size. *)
Theorem ctypes_get_title_from_hwnd_stale_or_untitled dm σ hwnd :
  ctypes_accepts dm hwnd →
  os_windows σ !! c_int hwnd = None
  ∨ (∃ w, os_windows σ !! c_int hwnd = Some w ∧ w_text w = "") →
  Ctypes.get_title_from_hwnd dm hwnd σ =
    (Ok "", add_trace σ [EvGetWindowTextLengthW (c_int hwnd) 0;
                         EvGetWindowTextW (c_int hwnd) 1 (0 + 1) 0]).
Proof.
  intros Hh Hw. rewrite ctypes_get_title_from_hwnd_accepted by done.
  by apply get_title_from_hwnd_stale_or_untitled.
Qed.

(** C6, as amended: for an identifier that [ctypes] accepts, when its
    C int names no window, when the process cannot be opened, or when
    the image-name query (with its 260 characters) cannot answer,
    [Ctypes.get_process_name_from_hwnd] returns the empty text and
    raises nothing. *)
Theorem ctypes_get_process_name_from_hwnd_failure_empty dm σ hwnd :
  ctypes_accepts dm hwnd →
  os_windows σ !! c_int hwnd = None
  ∨ can_open σ PROCESS_QUERY_LIMITED_INFORMATION
      (owner_pid (os_windows σ) (c_int hwnd)) = false
  ∨ (∃ p, os_processes σ !! owner_pid (os_windows σ) (c_int hwnd) = Some p
          ∧ process_image p 260 = None) →
  ∃ σ', Ctypes.get_process_name_from_hwnd dm hwnd σ = (Ok "", σ').
Proof.
  intros Hh Hfail. rewrite ctypes_get_process_name_from_hwnd_accepted by done.
  by apply get_process_name_from_hwnd_failure_empty.
Qed.

(** X13: for every identifier that [ctypes] accepts,
    [Ctypes.get_process_name_from_hwnd] returns a text without
    backslash and without NUL, of at most 259 characters, and raises
    nothing. *)
Theorem ctypes_get_process_name_from_hwnd_name_shape dm σ hwnd :
  ctypes_accepts dm hwnd →
  ∃ name σ',
    Ctypes.get_process_name_from_hwnd dm hwnd σ = (Ok name, σ')
    ∧ (backslash ∉ list_ascii_of_string name)
    ∧ nul_free name
    ∧ (String.length name ≤ 259)%nat.
Proof.
  intros Hh. rewrite ctypes_get_process_name_from_hwnd_accepted by done.
  apply get_process_name_from_hwnd_name_shape.
Qed.

(** X14: for identifiers that [ctypes] accepts, the outcome of
    [Ctypes.get_process_name_from_hwnd] depends on the process table
    and on the process of the window that the C int of the identifier
    names (process 0 when it names none) only: windows of one process
    get one name, and so does a repeated call, whatever has happened to
    the handle table and the call log in between. *)
Theorem ctypes_get_process_name_from_hwnd_by_process dm σ1 σ2 hwnd1 hwnd2 :
  ctypes_accepts dm hwnd1 →
  ctypes_accepts dm hwnd2 →
  os_processes σ1 = os_processes σ2 →
  owner_pid (os_windows σ1) (c_int hwnd1)
  = owner_pid (os_windows σ2) (c_int hwnd2) →
  (Ctypes.get_process_name_from_hwnd dm hwnd1 σ1).1
  = (Ctypes.get_process_name_from_hwnd dm hwnd2 σ2).1.
Proof.
  intros Hh1 Hh2 Hps Hpid.
  rewrite !ctypes_get_process_name_from_hwnd_accepted by done.
  by apply get_process_name_from_hwnd_by_process.
Qed.

(** ** Opacity *)

(** X9: when [ctypes] accepts the identifier and the opacity, and the
    C int of the identifier names no window,
    [Ctypes.set_window_opacity] raises nothing and changes nothing:
    each of its three native calls answers 0, and the registry, the
    process table and the handle table are as before. *)
Theorem ctypes_set_window_opacity_stale dm σ hwnd opacity :
  ctypes_accepts dm hwnd →
  ctypes_accepts dm opacity →
  os_windows σ !! c_int hwnd = None →
  ∃ σ',
    Ctypes.set_window_opacity dm hwnd opacity σ = (Ok tt, σ')
    ∧ os_windows σ' = os_windows σ
    ∧ os_processes σ' = os_processes σ
    ∧ os_handles σ' = os_handles σ
    ∧ os_trace σ' =
        os_trace σ ++
          [EvGetWindowLongPtr (c_int hwnd) GWL_EXSTYLE 0;
           EvSetWindowLongPtr (c_int hwnd) GWL_EXSTYLE WS_EX_LAYERED 0;
           EvSetLayeredWindowAttributes (c_int hwnd) 0 (c_int opacity)
             LWA_ALPHA 0].
Proof.
  intros Hh Ho Hw. rewrite ctypes_set_window_opacity_accepted by done.
  by apply set_window_opacity_stale.
Qed.

(** X10: when [ctypes] accepts the identifier and the opacity, and the
    C int of the identifier names a window, [Ctypes.set_window_opacity]
    makes the window layered first, so that the layered-attributes call
    succeeds whatever the style was before; the alpha of the window
    becomes the low byte of [opacity], and its visibility, owner, text,
    thread and process stay as they were, as do the process and handle
    tables. *)
Theorem ctypes_set_window_opacity_sets_alpha dm σ hwnd opacity w :
  ctypes_accepts dm hwnd →
  ctypes_accepts dm opacity →
  os_windows σ !! c_int hwnd = Some w →
  ∃ σ' w',
    Ctypes.set_window_opacity dm hwnd opacity σ = (Ok tt, σ')
    ∧ os_windows σ' !! c_int hwnd = Some w'
    ∧ w_alpha w' = Some (opacity mod 256)
    ∧ w_visible w' = w_visible w
    ∧ w_owner w' = w_owner w
    ∧ w_text w' = w_text w
    ∧ w_thread w' = w_thread w
    ∧ w_pid w' = w_pid w
    ∧ os_processes σ' = os_processes σ
    ∧ os_handles σ' = os_handles σ
    ∧ os_trace σ' =
        os_trace σ ++
          [EvGetWindowLongPtr (c_int hwnd) GWL_EXSTYLE (w_exstyle w);
           EvSetWindowLongPtr (c_int hwnd) GWL_EXSTYLE
             (Z.lor (w_exstyle w) WS_EX_LAYERED) (w_exstyle w);
           EvSetLayeredWindowAttributes (c_int hwnd) 0 (c_int opacity)
             LWA_ALPHA 1].
Proof.
  intros Hh Ho Hw. rewrite ctypes_set_window_opacity_accepted by done.
  rewrite <- (c_int_mod_256 opacity).
  by apply set_window_opacity_sets_alpha.
Qed.

(** X16: when [ctypes] accepts the identifier but not the opacity,
    [Ctypes.set_window_opacity] raises [ArgumentError] only at its
    third native call: a window that the C int of the identifier names
    has been made layered by then, its alpha is what it was, and no
    layered-attributes call has been issued. *)
Theorem ctypes_set_window_opacity_overflow_layered dm σ hwnd opacity w :
  ctypes_accepts dm hwnd →
  ¬ ctypes_accepts dm opacity →
  os_windows σ !! c_int hwnd = Some w →
  ∃ σ' w',
    Ctypes.set_window_opacity dm hwnd opacity σ = (Raise ArgumentError, σ')
    ∧ os_windows σ' !! c_int hwnd = Some w'
    ∧ w_exstyle w' = Z.lor (w_exstyle w) WS_EX_LAYERED
    ∧ w_alpha w' = w_alpha w
    ∧ os_trace σ' =
        os_trace σ ++
          [EvGetWindowLongPtr (c_int hwnd) GWL_EXSTYLE (w_exstyle w);
           EvSetWindowLongPtr (c_int hwnd) GWL_EXSTYLE
             (Z.lor (w_exstyle w) WS_EX_LAYERED) (w_exstyle w)].
Proof.
  intros Hh Ho Hw. rewrite ctypes_set_window_opacity_overflow by done.
  unfold with_layered, reported_exstyle. rewrite Hw.
  eexists _, _. split; [reflexivity|].
  cbn [os_windows os_trace]. rewrite lookup_insert_eq.
  split; [reflexivity|]. done.
Qed.

Lemma ctypes_set_window_opacity_registry dm σ hwnd opacity :
  ∃ r σ',
    Ctypes.set_window_opacity dm hwnd opacity σ = (r, σ')
    ∧ r = (if decide (ctypes_accepts dm hwnd ∧ ctypes_accepts dm opacity)
           then Ok tt else Raise ArgumentError)
    ∧ os_windows σ' =
        if decide (ctypes_accepts dm hwnd)
        then if decide (ctypes_accepts dm opacity)
             then with_opacity (os_windows σ) (c_int hwnd) (c_int opacity)
             else with_layered (os_windows σ) (c_int hwnd)
        else os_windows σ.
Proof.
  destruct (decide (ctypes_accepts dm hwnd)) as [Hh|Hh].
  - destruct (decide (ctypes_accepts dm opacity)) as [Ho|Ho].
    + rewrite ctypes_set_window_opacity_accepted by done.
      destruct (set_window_opacity_registry σ (c_int hwnd) (c_int opacity))
        as (σ' & -> & Hws & _).
      eexists _, _. split; [reflexivity|]. by rewrite decide_True.
    + rewrite ctypes_set_window_opacity_overflow by done.
      eexists _, _. split; [reflexivity|]. rewrite decide_False by tauto. done.
  - rewrite ctypes_set_window_opacity_rejected by done.
    eexists _, _. split; [reflexivity|]. rewrite decide_False by tauto. done.
Qed.

Lemma with_opacity_with_layered ws hwnd opacity :
  with_opacity (with_layered ws hwnd) hwnd opacity = with_opacity ws hwnd opacity.
Proof.
  unfold with_opacity, with_layered. destruct (ws !! hwnd) as [w|] eqn:Hw.
  - rewrite lookup_insert_eq. cbn [w_exstyle with_alpha with_exstyle].
    rewrite insert_insert_eq, <- Z.lor_assoc, Z.lor_diag. done.
  - by rewrite Hw.
Qed.

(** X11: when [ctypes] accepts the second opacity, two calls of
    [Ctypes.set_window_opacity] on the same identifier leave the
    registry that the second call alone leaves, and the second call
    has the same outcome in both cases, whether or not the first call
    raised. *)
Theorem ctypes_set_window_opacity_last_wins dm σ hwnd a b :
  ctypes_accepts dm b →
  ∃ r1 r σ1 σ2 σ3,
    Ctypes.set_window_opacity dm hwnd a σ = (r1, σ1)
    ∧ Ctypes.set_window_opacity dm hwnd b σ1 = (r, σ2)
    ∧ Ctypes.set_window_opacity dm hwnd b σ = (r, σ3)
    ∧ os_windows σ2 = os_windows σ3.
Proof.
  intros Hb.
  destruct (ctypes_set_window_opacity_registry dm σ hwnd a)
    as (r1 & σ1 & Hrun1 & _ & Hws1).
  destruct (ctypes_set_window_opacity_registry dm σ1 hwnd b)
    as (r2 & σ2 & Hrun2 & Hr2 & Hws2).
  destruct (ctypes_set_window_opacity_registry dm σ hwnd b)
    as (r3 & σ3 & Hrun3 & Hr3 & Hws3).
  exists r1, r2, σ1, σ2, σ3. split; [done|]. split; [done|].
  split; [by rewrite Hrun3, Hr3, Hr2|].
  destruct (decide (ctypes_accepts dm hwnd)); [|by rewrite Hws2, Hws3, Hws1].
  rewrite decide_True in Hws2 by done. rewrite decide_True in Hws3 by done.
  rewrite Hws2, Hws3, Hws1.
  destruct (decide (ctypes_accepts dm a)).
  - apply with_opacity_with_opacity.
  - apply with_opacity_with_layered.
Qed.

(** ** Identifiers outside the C int range *)

(** X17: an identifier that [ctypes] does not accept makes each of the
    three functions raise [ArgumentError] before any native call: the
    platform and its call log are as before. *)
Theorem ctypes_rejected_identifier dm σ hwnd opacity :
  ¬ ctypes_accepts dm hwnd →
  Ctypes.get_title_from_hwnd dm hwnd σ = (Raise ArgumentError, σ)
  ∧ Ctypes.get_process_name_from_hwnd dm hwnd σ = (Raise ArgumentError, σ)
  ∧ Ctypes.set_window_opacity dm hwnd opacity σ = (Raise ArgumentError, σ).
Proof.
  intros Hh.
  by rewrite ctypes_get_title_from_hwnd_rejected,
    ctypes_get_process_name_from_hwnd_rejected,
    ctypes_set_window_opacity_rejected.
Qed.

(** X18: accepted identifiers with the same C int are treated alike by
    the three functions. *)
Theorem ctypes_identifier_aliases dm σ hwnd1 hwnd2 opacity :
  ctypes_accepts dm hwnd1 →
  ctypes_accepts dm hwnd2 →
  c_int hwnd1 = c_int hwnd2 →
  Ctypes.get_title_from_hwnd dm hwnd1 σ = Ctypes.get_title_from_hwnd dm hwnd2 σ
  ∧ Ctypes.get_process_name_from_hwnd dm hwnd1 σ
    = Ctypes.get_process_name_from_hwnd dm hwnd2 σ
  ∧ Ctypes.set_window_opacity dm hwnd1 opacity σ
    = Ctypes.set_window_opacity dm hwnd2 opacity σ.
Proof.
  intros Hh1 Hh2 Heq.
  rewrite !ctypes_get_title_from_hwnd_accepted,
    !ctypes_get_process_name_from_hwnd_accepted, Heq by done.
  split; [done|]. split; [done|].
  destruct (decide (ctypes_accepts dm opacity)).
  - by rewrite !ctypes_set_window_opacity_accepted, Heq.
  - by rewrite !ctypes_set_window_opacity_overflow, Heq.
Qed.

(** * The functions as Python calls them, on the scenarios *)

(** C5 fails for integers outside the C int range: 2^64 names no
    window, and the lookup raises under either data model; 2147483649
    names no window either, and the lookup returns the title of the
    window that it wraps to. *)
Lemma get_title_from_hwnd_out_of_range :
  os_windows desk_AB !! (2 ^ 64) = None
  ∧ Ctypes.get_title_from_hwnd LLP64 (2 ^ 64) desk_AB
    = (Raise ArgumentError, desk_AB)
  ∧ Ctypes.get_title_from_hwnd LP64 (2 ^ 64) desk_AB
    = (Raise ArgumentError, desk_AB)
  ∧ os_windows desk_H !! 2147483649 = None
  ∧ (Ctypes.get_title_from_hwnd LLP64 2147483649 desk_H).1 = Ok "High"
  ∧ (Ctypes.get_title_from_hwnd LP64 2147483649 desk_H).1 = Ok "High".
Proof. repeat split; vm_compute; reflexivity. Qed.

(** C6 fails for integers outside the C int range: 2^64 names no
    window, and the lookup raises under either data model; 2147483649
    names no window either, and the lookup returns the process name of
    the window that it wraps to. *)
Lemma get_process_name_from_hwnd_out_of_range :
  os_windows desk_AB !! (2 ^ 64) = None
  ∧ Ctypes.get_process_name_from_hwnd LLP64 (2 ^ 64) desk_AB
    = (Raise ArgumentError, desk_AB)
  ∧ Ctypes.get_process_name_from_hwnd LP64 (2 ^ 64) desk_AB
    = (Raise ArgumentError, desk_AB)
  ∧ os_windows desk_H !! 2147483649 = None
  ∧ (Ctypes.get_process_name_from_hwnd LLP64 2147483649 desk_H).1
    = Ok "notepad.exe"
  ∧ (Ctypes.get_process_name_from_hwnd LP64 2147483649 desk_H).1
    = Ok "notepad.exe".
Proof. repeat split; vm_compute; reflexivity. Qed.

Lemma ctypes_get_title_from_hwnd_stale_or_untitled_witness :
  ctypes_accepts LLP64 99
  ∧ os_windows desk_AB !! c_int 99 = None
  ∧ Ctypes.get_title_from_hwnd LLP64 99 desk_AB =
      (Ok "", add_trace desk_AB [EvGetWindowTextLengthW (c_int 99) 0;
                                 EvGetWindowTextW (c_int 99) 1 (0 + 1) 0]).
Proof.
  split; [by_evaluation|]. split; [reflexivity|].
  apply (ctypes_get_title_from_hwnd_stale_or_untitled LLP64 desk_AB 99);
    [by_evaluation|left; reflexivity].
Defined.

Lemma ctypes_get_process_name_from_hwnd_failure_empty_witness :
  ctypes_accepts LLP64 4
  ∧ (∃ p, os_processes desk_ABCD !! owner_pid (os_windows desk_ABCD) (c_int 4)
          = Some p
          ∧ process_image p 260 = None)
  ∧ ∃ σ', Ctypes.get_process_name_from_hwnd LLP64 4 desk_ABCD = (Ok "", σ').
Proof.
  assert (∃ p, os_processes desk_ABCD
                 !! owner_pid (os_windows desk_ABCD) (c_int 4) = Some p
               ∧ process_image p 260 = None) as Hquery.
  { exists (Process true (Some deep_exe)). split; vm_compute; reflexivity. }
  split; [by_evaluation|]. split; [exact Hquery|].
  apply (ctypes_get_process_name_from_hwnd_failure_empty LLP64 desk_ABCD 4);
    [by_evaluation|].
  right. right. exact Hquery.
Defined.

Lemma get_process_name_from_hwnd_long_path_witness :
  os_windows desk_ABCD !! 4 = Some window_D
  ∧ os_processes desk_ABCD !! w_pid window_D
      = Some (Process true (Some deep_exe))
  ∧ (259 < String.length deep_exe)%nat
  ∧ ∃ σ',
      get_process_name_from_hwnd 4 desk_ABCD = (Ok "", σ')
      ∧ os_trace σ' =
          [EvGetWindowThreadProcessId 4 21;
           EvOpenProcess PROCESS_QUERY_LIMITED_INFORMATION 200 4;
           EvQueryFullProcessImageNameW 4 260 260 0;
           EvCloseHandle 4 1].
Proof.
  split; [reflexivity|]. split; [reflexivity|]. split; [vm_compute; lia|].
  apply (get_process_name_from_hwnd_long_path desk_ABCD 4 window_D
           (Process true (Some deep_exe)) deep_exe);
    [reflexivity|reflexivity|reflexivity|vm_compute; lia].
Defined.

Lemma ctypes_get_process_name_from_hwnd_name_shape_witness :
  ctypes_accepts LLP64 1
  ∧ ∃ name σ',
      Ctypes.get_process_name_from_hwnd LLP64 1 desk_ABCD = (Ok name, σ')
      ∧ (backslash ∉ list_ascii_of_string name)
      ∧ nul_free name
      ∧ (String.length name ≤ 259)%nat.
Proof.
  split; [by_evaluation|].
  apply (ctypes_get_process_name_from_hwnd_name_shape LLP64 desk_ABCD 1).
  by_evaluation.
Defined.

Lemma ctypes_get_process_name_from_hwnd_by_process_witness :
  ctypes_accepts LLP64 3
  ∧ ctypes_accepts LLP64 1
  ∧ os_processes desk_ABCD = os_processes desk_AB
  ∧ owner_pid (os_windows desk_ABCD) (c_int 3)
    = owner_pid (os_windows desk_AB) (c_int 1)
  ∧ (Ctypes.get_process_name_from_hwnd LLP64 3 desk_ABCD).1
    = (Ctypes.get_process_name_from_hwnd LLP64 1 desk_AB).1.
Proof.
  split; [by_evaluation|]. split; [by_evaluation|].
  split; [reflexivity|]. split; [reflexivity|].
  apply (ctypes_get_process_name_from_hwnd_by_process
           LLP64 desk_ABCD desk_AB 3 1);
    [by_evaluation|by_evaluation|reflexivity|reflexivity].
Defined.

Lemma ctypes_set_window_opacity_stale_witness :
  ctypes_accepts LLP64 99
  ∧ ctypes_accepts LLP64 128
  ∧ os_windows desk_AB !! c_int 99 = None
  ∧ ∃ σ',
      Ctypes.set_window_opacity LLP64 99 128 desk_AB = (Ok tt, σ')
      ∧ os_windows σ' = os_windows desk_AB
      ∧ os_processes σ' = os_processes desk_AB
      ∧ os_handles σ' = os_handles desk_AB
      ∧ os_trace σ' =
          os_trace desk_AB ++
            [EvGetWindowLongPtr (c_int 99) GWL_EXSTYLE 0;
             EvSetWindowLongPtr (c_int 99) GWL_EXSTYLE WS_EX_LAYERED 0;
             EvSetLayeredWindowAttributes (c_int 99) 0 (c_int 128)
               LWA_ALPHA 0].
Proof.
  split; [by_evaluation|]. split; [by_evaluation|]. split; [reflexivity|].
  apply (ctypes_set_window_opacity_stale LLP64 desk_AB 99 128);
    [by_evaluation|by_evaluation|reflexivity].
Defined.

Lemma ctypes_set_window_opacity_sets_alpha_witness :
  ctypes_accepts LLP64 1
  ∧ ctypes_accepts LLP64 300
  ∧ os_windows desk_AB !! c_int 1 = Some window_A
  ∧ ∃ σ' w',
      Ctypes.set_window_opacity LLP64 1 300 desk_AB = (Ok tt, σ')
      ∧ os_windows σ' !! c_int 1 = Some w'
      ∧ w_alpha w' = Some (300 mod 256)
      ∧ w_visible w' = w_visible window_A
      ∧ w_owner w' = w_owner window_A
      ∧ w_text w' = w_text window_A
      ∧ w_thread w' = w_thread window_A
      ∧ w_pid w' = w_pid window_A
      ∧ os_processes σ' = os_processes desk_AB
      ∧ os_handles σ' = os_handles desk_AB
      ∧ os_trace σ' =
          os_trace desk_AB ++
            [EvGetWindowLongPtr (c_int 1) GWL_EXSTYLE (w_exstyle window_A);
             EvSetWindowLongPtr (c_int 1) GWL_EXSTYLE
               (Z.lor (w_exstyle window_A) WS_EX_LAYERED)
               (w_exstyle window_A);
             EvSetLayeredWindowAttributes (c_int 1) 0 (c_int 300)
               LWA_ALPHA 1].
Proof.
  split; [by_evaluation|]. split; [by_evaluation|]. split; [reflexivity|].
  apply (ctypes_set_window_opacity_sets_alpha LLP64 desk_AB 1 300 window_A);
    [by_evaluation|by_evaluation|reflexivity].
Defined.

Lemma ctypes_set_window_opacity_overflow_layered_witness :
  ctypes_accepts LLP64 1
  ∧ ¬ ctypes_accepts LLP64 (2 ^ 64)
  ∧ os_windows desk_AB !! c_int 1 = Some window_A
  ∧ ∃ σ' w',
      Ctypes.set_window_opacity LLP64 1 (2 ^ 64) desk_AB
      = (Raise ArgumentError, σ')
      ∧ os_windows σ' !! c_int 1 = Some w'
      ∧ w_exstyle w' = Z.lor (w_exstyle window_A) WS_EX_LAYERED
      ∧ w_alpha w' = w_alpha window_A
      ∧ os_trace σ' =
          os_trace desk_AB ++
            [EvGetWindowLongPtr (c_int 1) GWL_EXSTYLE (w_exstyle window_A);
             EvSetWindowLongPtr (c_int 1) GWL_EXSTYLE
               (Z.lor (w_exstyle window_A) WS_EX_LAYERED)
               (w_exstyle window_A)].
Proof.
  split; [by_evaluation|]. split; [by_evaluation|]. split; [reflexivity|].
  apply (ctypes_set_window_opacity_overflow_layered
           LLP64 desk_AB 1 (2 ^ 64) window_A);
    [by_evaluation|by_evaluation|reflexivity].
Defined.

Lemma ctypes_set_window_opacity_last_wins_witness :
  ctypes_accepts LLP64 200
  ∧ ∃ r1 r σ1 σ2 σ3,
      Ctypes.set_window_opacity LLP64 1 (2 ^ 64) desk_AB = (r1, σ1)
      ∧ Ctypes.set_window_opacity LLP64 1 200 σ1 = (r, σ2)
      ∧ Ctypes.set_window_opacity LLP64 1 200 desk_AB = (r, σ3)
      ∧ os_windows σ2 = os_windows σ3.
Proof.
  split; [by_evaluation|].
  apply (ctypes_set_window_opacity_last_wins LLP64 desk_AB 1 (2 ^ 64) 200).
  by_evaluation.
Defined.

Lemma ctypes_rejected_identifier_witness :
  ¬ ctypes_accepts LLP64 (2 ^ 64)
  ∧ Ctypes.get_title_from_hwnd LLP64 (2 ^ 64) desk_AB
    = (Raise ArgumentError, desk_AB)
  ∧ Ctypes.get_process_name_from_hwnd LLP64 (2 ^ 64) desk_AB
    = (Raise ArgumentError, desk_AB)
  ∧ Ctypes.set_window_opacity LLP64 (2 ^ 64) 128 desk_AB
    = (Raise ArgumentError, desk_AB).
Proof.
  split; [by_evaluation|].
  apply (ctypes_rejected_identifier LLP64 desk_AB (2 ^ 64) 128).
  by_evaluation.
Defined.

Lemma ctypes_identifier_aliases_witness :
  ctypes_accepts LLP64 2147483649
  ∧ ctypes_accepts LLP64 (-2147483647)
  ∧ c_int 2147483649 = c_int (-2147483647)
  ∧ Ctypes.get_title_from_hwnd LLP64 2147483649 desk_H
    = Ctypes.get_title_from_hwnd LLP64 (-2147483647) desk_H
  ∧ Ctypes.get_process_name_from_hwnd LLP64 2147483649 desk_H
    = Ctypes.get_process_name_from_hwnd LLP64 (-2147483647) desk_H
  ∧ Ctypes.set_window_opacity LLP64 2147483649 128 desk_H
    = Ctypes.set_window_opacity LLP64 (-2147483647) 128 desk_H.
Proof.
  split; [by_evaluation|]. split; [by_evaluation|]. split; [reflexivity|].
  apply (ctypes_identifier_aliases LLP64 desk_H 2147483649 (-2147483647) 128);
    [by_evaluation|by_evaluation|reflexivity].
Defined.
